(** * CIFuzz [fuzz_target.py]: a shallow embedding and its properties

    The module under study is [infra/cifuzz/fuzz_target.py]: the class
    [FuzzTarget] with its methods [fuzz], [is_reproducible],
    [download_latest_corpus] and [get_test_case].

    Python text is a [string] (one character per code point, code points
    0..255), Python [bytes] a [list byte].  The outside world (docker, the
    network, the file system, the [utils] helpers) is an explicit
    environment of oracles plus a world state threaded through the methods;
    exceptions are an explicit result. *)

From Stdlib Require Import ZArith NArith Bool.
From Stdlib.Strings Require Import Ascii Byte.
From Stdlib Require String.
From stdpp Require Import base option list gmap strings.

Local Open Scope Z_scope.

(** ** Python text helpers *)

Module PyStr.

Definition code (c : ascii) : N := N_of_ascii c.

Definition between (lo hi : N) (c : ascii) : bool :=
  ((lo <=? code c) && (code c <=? hi))%N.

(** [Py_UNICODE_ISSPACE] on code points 0..255, the class behind the
    pattern escape [\s] of a [str] pattern. *)
Definition isspace (c : ascii) : bool :=
  between 9 13 c || between 28 32 c || between 133 133 c
  || between 160 160 c.

(** [str.isalnum] on code points 0..255. *)
Definition isalnum (c : ascii) : bool :=
  between 48 57 c || between 65 90 c || between 97 122 c
  || between 170 170 c || between 178 179 c || between 181 181 c
  || between 185 186 c || between 188 190 c
  || between 192 214 c || between 216 246 c || between 248 255 c.

(** The class behind [\w] and [\b]: alphanumeric or underscore. *)
Definition isword (c : ascii) : bool :=
  isalnum c || between 95 95 c.

Definition nonempty (s : string) : bool :=
  match s with EmptyString => false | String _ _ => true end.

Fixpoint take (n : nat) (s : string) : string :=
  match n, s with
  | S k, String c s' => String c (take k s')
  | _, _ => EmptyString
  end.

Fixpoint drop (n : nat) (s : string) : string :=
  match n, s with
  | S k, String _ s' => drop k s'
  | _, _ => s
  end.

Fixpoint startswith (pre s : string) : bool :=
  match pre, s with
  | EmptyString, _ => true
  | String c pre', String d s' => bool_decide (c = d) && startswith pre' s'
  | String _ _, EmptyString => false
  end.

Fixpoint endswith_char (s : string) (c : ascii) : bool :=
  match s with
  | EmptyString => false
  | String d EmptyString => bool_decide (d = c)
  | String _ s' => endswith_char s' c
  end.

Fixpoint all_char (c : ascii) (s : string) : bool :=
  match s with
  | EmptyString => true
  | String d s' => bool_decide (d = c) && all_char c s'
  end.

(** [s.rstrip(c)]: drop the trailing run of [c]. *)
Fixpoint rstrip (c : ascii) (s : string) : string :=
  match s with
  | EmptyString => EmptyString
  | String d s' =>
      let r := rstrip c s' in
      if negb (nonempty r) && bool_decide (d = c) then EmptyString
      else String d r
  end.

(** [s.rfind(c) + 1]: one more than the index of the last [c], 0 when
    there is none. *)
Fixpoint rfind_succ (c : ascii) (s : string) : nat :=
  match s with
  | EmptyString => 0%nat
  | String d s' =>
      match rfind_succ c s' with
      | O => if bool_decide (d = c) then 1%nat else 0%nat
      | S k => S (S k)
      end
  end.

(** [sep.join(l)] *)
Fixpoint join (sep : string) (l : list string) : string :=
  match l with
  | [] => ""
  | [x] => x
  | x :: rest => x +:+ sep +:+ join sep rest
  end.

End PyStr.

(** ** [os.path] on a POSIX host *)

Module PosixPath.

Definition sep : ascii := "/"%char.

(** One round of the loop of [posixpath.join]. *)
Definition join_step (path b : string) : string :=
  if PyStr.startswith "/" b then b
  else if negb (PyStr.nonempty path) || PyStr.endswith_char path sep
       then path +:+ b
       else path +:+ "/" +:+ b.

(** [os.path.join(a, *p)] *)
Definition join (a : string) (p : list string) : string :=
  fold_left join_step p a.

(** [os.path.basename(p)] *)
Definition basename (p : string) : string :=
  PyStr.drop (PyStr.rfind_succ sep p) p.

(** [os.path.dirname(p)] *)
Definition dirname (p : string) : string :=
  let head := PyStr.take (PyStr.rfind_succ sep p) p in
  if PyStr.nonempty head && negb (PyStr.all_char sep head)
  then PyStr.rstrip sep head
  else head.

End PosixPath.

(** ** The pattern of [get_test_case]

    [re.search(r'\bTest unit written to \.\/([^\s]+)', error_string)]:
    the leftmost position where the pattern matches; at a position, the
    group is the longest run of non-space characters (the greedy [+] is
    the last item of the pattern, so no shorter run is ever tried). *)

Module Pattern.

Definition marker : string := "Test unit written to ./".

(** [\b] between the character before the position ([prev], [None] at
    the start of the text) and the text from the position on. *)
Definition word_boundary (prev : option ascii) (s : string) : bool :=
  let thatp := match prev with Some c => PyStr.isword c | None => false end in
  let thisp := match s with String c _ => PyStr.isword c | EmptyString => false end in
  xorb thisp thatp.

(** Matching a literal at the head of [s]; the rest of [s] on success. *)
Fixpoint literal (lit s : string) : option string :=
  match lit with
  | EmptyString => Some s
  | String c lit' =>
      match s with
      | String d s' => if bool_decide (c = d) then literal lit' s' else None
      | EmptyString => None
      end
  end.

(** The longest prefix of non-space characters. *)
Fixpoint nonspace_run (s : string) : string :=
  match s with
  | EmptyString => EmptyString
  | String c s' =>
      if PyStr.isspace c then EmptyString else String c (nonspace_run s')
  end.

(** The whole pattern anchored at one position: [group(1)] on success. *)
Definition match_at (prev : option ascii) (s : string) : option string :=
  if word_boundary prev s then
    match literal marker s with
    | Some rest =>
        let g := nonspace_run rest in
        if PyStr.nonempty g then Some g else None
    | None => None
    end
  else None.

(** [re.search] from a position on: [group(1)] of the leftmost match. *)
Fixpoint search_from (prev : option ascii) (s : string) : option string :=
  match match_at prev s with
  | Some g => Some g
  | None =>
      match s with
      | EmptyString => None
      | String c s' => search_from (Some c) s'
      end
  end.

Definition search (s : string) : option string := search_from None s.

End Pattern.

(** ** The outside world

    Exceptions the module can meet, results, and the state the methods
    thread: the file system, the children started and still running, the
    calls made to the oracles and a trace of every interaction. *)

Inductive exn :=
| AttributeError
| UnicodeDecodeError
| TypeError
| TimeoutExpired
| HTTPError
| URLError
| BadZipFile.

Inductive outcome (A : Type) :=
| Ret (a : A)
| Raise (e : exn).
Arguments Ret {A} a.
Arguments Raise {A} e.

Inductive level := INFO | ERROR.

Inductive event :=
| Log (lvl : level) (msg : string)
| GetContainerName
| Popen (command : list string)
| Communicate (timeout : Z)
| Execute (command : list string)
| PathExists (path : string)
| Makedirs (path : string)
| Urlopen (url : string)
| ExtractAll (dir : string).

(** What [process.communicate(timeout=...)] ends with. *)
Inductive communicate_result :=
| Exited (stdout stderr : list byte)
| StillRunning.

(** The body of an HTTP response as [zipfile.ZipFile] sees it: the members
    by relative path, or not an archive at all. *)
Inductive body :=
| Zip (members : gmap string (list byte))
| NotAZip.

(** What [urllib.request.urlopen(url)] ends with: a response, an HTTP error
    status ([urllib.error.HTTPError]), or a failure below HTTP
    ([urllib.error.URLError], the parent class of [HTTPError]). *)
Inductive urlopen_result :=
| Response (b : body)
| HTTPStatusError
| ConnectionFailure.

(** The oracles.  [utils] is not part of the module: its two functions are
    taken as they are called.  [execute] and [urlopen] are indexed by the
    number of earlier calls, so that successive calls may differ. *)
Record env := {
  get_container_name : option string;
  communicate : list string -> Z -> communicate_result;
  execute : nat -> list string -> string * string * Z;
  urlopen : nat -> string -> urlopen_result;
}.

(** The state of the host.  [fs]: the directories that exist, each with
    the files below it by relative path (every path that exists is taken
    to be a directory).  [running]: the children started by [Popen] that
    have not ended.  [executes], [fetches]: how many times [utils.execute]
    and [urlopen] have been called.  [trace]: every interaction so far,
    oldest first. *)
Record world := {
  fs : gmap string (gmap string (list byte));
  running : list (list string);
  executes : nat;
  fetches : nat;
  trace : list event;
}.

Definition M (A : Type) : Type := world -> outcome A * world.

Definition ret {A} (a : A) : M A := fun w => (Ret a, w).

Definition raise {A} (e : exn) : M A := fun w => (Raise e, w).

Definition bind {A B} (m : M A) (k : A -> M B) : M B :=
  fun w =>
    match m w with
    | (Ret a, w') => k a w'
    | (Raise e, w') => (Raise e, w')
    end.

(** [try: m  except <handles>: handler] *)
Definition try_except {A} (m : M A) (handles : exn -> bool) (handler : M A) : M A :=
  fun w =>
    match m w with
    | (Ret a, w') => (Ret a, w')
    | (Raise e, w') => if handles e then handler w' else (Raise e, w')
    end.

Notation "x <- m ;; k" := (bind m (fun x => k))
  (at level 100, m at level 99, k at level 200, right associativity).
Notation "m ;;; k" := (bind m (fun _ => k))
  (at level 100, k at level 200, right associativity).

Definition emit (ev : event) : M unit :=
  fun w => (Ret tt,
            {| fs := fs w; running := running w; executes := executes w;
               fetches := fetches w; trace := trace w ++ [ev] |}).

Definition logging_info (msg : string) : M unit := emit (Log INFO msg).
Definition logging_error (msg : string) : M unit := emit (Log ERROR msg).

(** [logging.error(msg, file=sys.stderr)]: [Logger._log] has no keyword
    [file], and the root logger is enabled for ERROR, so the call raises
    [TypeError] before anything is logged. *)
Definition logging_error_file_kwarg (msg : string) : M unit := raise TypeError.

(** [utils.get_container_name()] *)
Definition utils_get_container_name (e : env) : M (option string) :=
  emit GetContainerName ;;; ret (get_container_name e).

(** [subprocess.Popen(command, ...)]: the child starts; the command stands
    for the process object. *)
Definition subprocess_Popen (command : list string) : M (list string) :=
  fun w => (Ret command,
            {| fs := fs w; running := command :: running w;
               executes := executes w; fetches := fetches w;
               trace := trace w ++ [Popen command] |}).

(** The child that ended leaves the list of running children. *)
Fixpoint remove_child (command : list string) (l : list (list string))
  : list (list string) :=
  match l with
  | [] => []
  | c :: rest =>
      if bool_decide (c = command) then rest else c :: remove_child command rest
  end.

(** [process.communicate(timeout=timeout)]: waits for the child; when the
    time is up it raises [TimeoutExpired] and leaves the child as it is
    (the library does not kill it). *)
Definition process_communicate (e : env) (process : list string) (timeout : Z)
  : M (list byte * list byte) :=
  fun w =>
    let w1 := {| fs := fs w; running := running w; executes := executes w;
                 fetches := fetches w; trace := trace w ++ [Communicate timeout] |} in
    match communicate e process timeout with
    | Exited out err =>
        (Ret (out, err),
         {| fs := fs w1; running := remove_child process (running w1);
            executes := executes w1; fetches := fetches w1; trace := trace w1 |})
    | StillRunning => (Raise TimeoutExpired, w1)
    end.

(** [utils.execute(command)] *)
Definition utils_execute (e : env) (command : list string) : M (string * string * Z) :=
  fun w => (Ret (execute e (executes w) command),
            {| fs := fs w; running := running w; executes := S (executes w);
               fetches := fetches w; trace := trace w ++ [Execute command] |}).

(** [os.path.exists(path)] *)
Definition os_path_exists (path : string) : M bool :=
  fun w => (Ret (bool_decide (is_Some (fs w !! path))),
            {| fs := fs w; running := running w; executes := executes w;
               fetches := fetches w; trace := trace w ++ [PathExists path] |}).

(** [os.makedirs(path, exist_ok=True)]: the directory exists afterwards,
    empty when it is new, untouched when it was there. *)
Definition os_makedirs (path : string) : M unit :=
  fun w => (Ret tt,
            {| fs := match fs w !! path with
                     | Some _ => fs w
                     | None => <[path := ∅]> (fs w)
                     end;
               running := running w; executes := executes w;
               fetches := fetches w; trace := trace w ++ [Makedirs path] |}).

(** [urllib.request.urlopen(url)] followed by [response.read()] *)
Definition urllib_urlopen_read (e : env) (url : string) : M body :=
  fun w =>
    let w1 := {| fs := fs w; running := running w; executes := executes w;
                 fetches := S (fetches w); trace := trace w ++ [Urlopen url] |} in
    match urlopen e (fetches w) url with
    | Response b => (Ret b, w1)
    | HTTPStatusError => (Raise HTTPError, w1)
    | ConnectionFailure => (Raise URLError, w1)
    end.

(** [zipfile.ZipFile(io.BytesIO(data))] *)
Definition zipfile_ZipFile (b : body) : M (gmap string (list byte)) :=
  match b with
  | Zip members => ret members
  | NotAZip => raise BadZipFile
  end.

(** [zf.extractall(path)]: every member is written below [path], replacing
    a file of the same name; the other files stay. *)
Definition zf_extractall (members : gmap string (list byte)) (path : string) : M unit :=
  fun w => (Ret tt,
            {| fs := <[path := members ∪ default ∅ (fs w !! path)]> (fs w);
               running := running w; executes := executes w;
               fetches := fetches w; trace := trace w ++ [ExtractAll path] |}).

(** Python truth values *)
Definition truthy_str (s : option string) : bool :=
  match s with Some t => PyStr.nonempty t | None => false end.

Definition truthy_int (n : Z) : bool := negb (n =? 0).

(** ** [FuzzTarget] *)

(** The object's attributes.  [corpus_dir] is not set by [__init__]: the
    outer [option] says whether the attribute exists, the inner one is
    Python's [None] or a path. *)
Record FuzzTarget := {
  target_name : string;
  duration : Z;
  target_path : string;
  out_dir : string;
  project_name : option string;
  corpus_dir : option (option string);
}.

(** [FuzzTarget.__init__] *)
Definition init (target_path : string) (duration : Z) (out_dir : string)
    (project_name : option string) : FuzzTarget :=
  {| target_name := PosixPath.basename target_path;
     duration := duration;
     target_path := target_path;
     out_dir := out_dir;
     project_name := project_name;
     corpus_dir := None |}.

(** The caller's [target.corpus_dir = value]. *)
Definition set_corpus_dir (value : option string) (self : FuzzTarget) : FuzzTarget :=
  {| target_name := target_name self;
     duration := duration self;
     target_path := target_path self;
     out_dir := out_dir self;
     project_name := project_name self;
     corpus_dir := Some value |}.

(** [FuzzTarget.get_test_case] *)
Definition get_test_case (self : FuzzTarget) (error_string : string) : option string :=
  match Pattern.search error_string with
  | Some group1 => Some (PosixPath.join (out_dir self) [group1])
  | None => None
  end.


Definition LIBFUZZER_OPTIONS : string := "-seed=1337 -len_control=0".

(** The number of reproduce attempts for a crash. *)
Definition REPRODUCE_ATTEMPTS : nat := 10.

(** The command line of [fuzz]. *)
Definition fuzz_command (self : FuzzTarget) (docker_container corpus : option string)
  : list string :=
  let command := ["docker"; "run"; "--rm"; "--privileged"] in
  let command :=
    match docker_container with
    | Some name =>
        if PyStr.nonempty name
        then command ++ ["--volumes-from"; name; "-e"; "OUT=" +:+ out_dir self]
        else command ++ ["-v"; out_dir self +:+ ":" +:+ "/out"]
    | None => command ++ ["-v"; out_dir self +:+ ":" +:+ "/out"]
    end in
  let command :=
    command ++ ["-e"; "FUZZING_ENGINE=libfuzzer"; "-e"; "SANITIZER=address"; "-e";
                "RUN_FUZZER_MODE=interactive"; "gcr.io/oss-fuzz-base/base-runner";
                "bash"; "-c"] in
  let run_fuzzer_command :=
    "run_fuzzer " +:+ target_name self +:+ " " +:+ LIBFUZZER_OPTIONS in
  let run_fuzzer_command :=
    match corpus with
    | Some dir =>
        if PyStr.nonempty dir then run_fuzzer_command +:+ " " +:+ dir
        else run_fuzzer_command
    | None => run_fuzzer_command
    end in
  command ++ [run_fuzzer_command].

(** The command line of [is_reproducible]. *)
Definition reproduce_command (self : FuzzTarget) (test_case : string) : list string :=
  ["docker"; "run"; "--rm"; "--privileged"; "-v";
   PosixPath.dirname (target_path self) +:+ ":/out"; "-v";
   test_case +:+ ":/testcase"; "-t"; "gcr.io/oss-fuzz-base/base-runner";
   "reproduce"; target_name self; "-runs=100"].

(** [for _ in range(attempts): ... return True] and the [return False]
    after the loop. *)
Fixpoint reproduce_loop (e : env) (command : list string) (attempts : nat) : M bool :=
  match attempts with
  | O => ret false
  | S n =>
      r <- utils_execute e command ;;
      let '(_, _, err_code) := r in
      if truthy_int err_code then ret true
      else reproduce_loop e command n
  end.

(** [FuzzTarget.is_reproducible] *)
Definition is_reproducible (e : env) (self : FuzzTarget) (test_case : string) : M bool :=
  reproduce_loop e (reproduce_command self test_case) REPRODUCE_ATTEMPTS.

(** [bytes.decode('ascii')] *)
Definition decode_ascii (data : list byte) : M string :=
  if forallb (fun b => (Byte.to_N b <? 128)%N) data
  then ret (String.string_of_list_byte data)
  else raise UnicodeDecodeError.

(** Reading [self.corpus_dir]. *)
Definition getattr_corpus_dir (self : FuzzTarget) : M (option string) :=
  match corpus_dir self with
  | Some v => ret v
  | None => raise AttributeError
  end.

Definition is_TimeoutExpired (x : exn) : bool :=
  match x with TimeoutExpired => true | _ => false end.

Definition is_HTTPError (x : exn) : bool :=
  match x with HTTPError => true | _ => false end.

(** [FuzzTarget.fuzz]: the pair [(test_case, stack trace)] or
    [(None, None)]. *)
Definition fuzz (e : env) (self : FuzzTarget) : M (option string * option string) :=
  logging_info ("Fuzzer " +:+ target_name self +:+ ", started.") ;;;
  docker_container <- utils_get_container_name e ;;
  corpus <- getattr_corpus_dir self ;;
  let command := fuzz_command self docker_container corpus in
  logging_info ("Running command: " +:+ PyStr.join " " command) ;;;
  process <- subprocess_Popen command ;;
  finished <-
    try_except
      (r <- process_communicate e process (duration self) ;; ret (Some (snd r)))
      is_TimeoutExpired
      (logging_info ("Fuzzer " +:+ target_name self +:+ ", finished with timeout.") ;;;
       ret None) ;;
  match finished with
  | None => ret (None, None)
  | Some err =>
      logging_info ("Fuzzer " +:+ target_name self +:+ ", ended before timeout.") ;;;
      err_str <- decode_ascii err ;;
      let test_case := get_test_case self err_str in
      if negb (truthy_str test_case) then
        logging_error_file_kwarg "No test case found in stack trace." ;;;
        ret (None, None)
      else
        reproducible <- is_reproducible e self (default "" test_case) ;;
        if reproducible then ret (test_case, Some err_str)
        else
          logging_error "A crash was found but it was not reproducible." ;;;
          ret (None, None)
  end.

(** The address of the backup corpus of a target. *)
Definition corpus_link (project target : string) : string :=
  "https://storage.googleapis.com/" +:+ project +:+
  "-backup.clusterfuzz-external.appspot.com/corpus/libFuzzer/" +:+
  project +:+ "_" +:+ target +:+ "/public.zip".

(** [FuzzTarget.download_latest_corpus]: the local path to the corpus, or
    [None]. *)
Definition download_latest_corpus (e : env) (self : FuzzTarget) : M (option string) :=
  if negb (truthy_str (project_name self)) then ret None
  else
    there <- os_path_exists (out_dir self) ;;
    if negb there then
      logging_error ("Out directory " +:+ out_dir self +:+ " does not exist.") ;;;
      ret None
    else
      let corpus_dir := PosixPath.join (out_dir self) ["corpus"; target_name self] in
      os_makedirs corpus_dir ;;;
      let link := corpus_link (default "" (project_name self)) (target_name self) in
      logging_info ("Trying corpus: " +:+ link) ;;;
      downloaded <-
        try_except
          (data <- urllib_urlopen_read e link ;;
           zf <- zipfile_ZipFile data ;;
           zf_extractall zf corpus_dir ;;;
           ret true)
          is_HTTPError
          (logging_error ("Unable to download corpus from: " +:+ link) ;;;
           ret false) ;;
      if downloaded then
        logging_info "Using downloaded corpus." ;;;
        ret (Some corpus_dir)
      else ret None.

(** The world before anything has happened, over a given file system. *)
Definition initial_world (files : gmap string (gmap string (list byte))) : world :=
  {| fs := files; running := []; executes := 0; fetches := 0; trace := [] |}.

(** ** Vocabulary of the statements *)

(** The exit code that the [k]-th trial of a confirmation started in [w]
    observes. *)
Definition trial_code (e : env) (command : list string) (w : world) (k : nat) : Z :=
  snd (execute e (executes w + k) command).

(** The per-target corpus directory and the address it is filled from. *)
Definition corpus_path (self : FuzzTarget) : string :=
  PosixPath.join (out_dir self) ["corpus"; target_name self].

Definition corpus_url (self : FuzzTarget) : string :=
  corpus_link (default "" (project_name self)) (target_name self).

(** The files below a directory (none when it does not exist). *)
Definition listing (w : world) (dir : string) : gmap string (list byte) :=
  default ∅ (fs w !! dir).

(** The character just before the position that follows [pre], when [prev]
    comes just before [pre]. *)
Fixpoint char_before (prev : option ascii) (pre : string) : option ascii :=
  match pre with
  | EmptyString => prev
  | String c pre' => char_before (Some c) pre'
  end.

(** Nothing, or a non-word character. *)
Definition nonword (prev : option ascii) : bool :=
  match prev with Some c => negb (PyStr.isword c) | None => true end.

(** A first character that is not white space. *)
Definition starts_nonspace (s : string) : bool :=
  match s with String c _ => negb (PyStr.isspace c) | EmptyString => false end.

Fixpoint no_space (s : string) : bool :=
  match s with
  | EmptyString => true
  | String c s' => negb (PyStr.isspace c) && no_space s'
  end.

(** An occurrence of the marker after [pre] counts when it sits at a word
    boundary and a path follows it. *)
Definition qualifies (prev : option ascii) (pre rest : string) : Prop :=
  nonword (char_before prev pre) = true /\ starts_nonspace rest = true.

(** [pre] leads to the first occurrence of the marker in [s] that counts. *)
Definition first_match (prev : option ascii) (s pre rest : string) : Prop :=
  s = pre +:+ Pattern.marker +:+ rest /\ qualifies prev pre rest /\
  forall pre' rest',
    s = pre' +:+ Pattern.marker +:+ rest' -> qualifies prev pre' rest' ->
    (String.length pre <= String.length pre')%nat.

(** The extraction as the specification words it: the first occurrence of
    the marker followed by a non-whitespace path, wherever it stands. *)
Definition claimed_match_at (s : string) : option string :=
  match Pattern.literal Pattern.marker s with
  | Some rest =>
      let g := Pattern.nonspace_run rest in
      if PyStr.nonempty g then Some g else None
  | None => None
  end.

Fixpoint claimed_search (s : string) : option string :=
  match claimed_match_at s with
  | Some g => Some g
  | None =>
      match s with
      | EmptyString => None
      | String _ s' => claimed_search s'
      end
  end.

Definition claimed_get_test_case (self : FuzzTarget) (error_string : string)
  : option string :=
  match claimed_search error_string with
  | Some path => Some (PosixPath.join (out_dir self) [path])
  | None => None
  end.

(** ** Sample runs *)

Definition newline : string := String "010" "".

Definition sample_target : FuzzTarget :=
  set_corpus_dir None (init "/work/build/fuzz_a" 60 "/out" None).

Definition project_target : FuzzTarget :=
  init "/work/build/fuzz_a" 60 "/out" (Some "zlib").

Definition crash_text : string :=
  "INFO: Seed: 1337" +:+ newline +:+
  "Test unit written to ./crash-abc123" +:+ newline +:+
  "ERROR: libFuzzer: deadly signal" +:+ newline.

(** The fuzzer exits with a crash; the third confirmation trial fails. *)
Definition crash_env : env :=
  {| get_container_name := None;
     communicate := fun _ _ => Exited [] (String.list_byte_of_string crash_text);
     execute := fun n _ => ("", "", if (n =? 2)%nat then 1 else 0);
     urlopen := fun _ _ => HTTPStatusError |}.

(** The fuzzer is still running at the deadline. *)
Definition timeout_env : env :=
  {| get_container_name := None;
     communicate := fun _ _ => StillRunning;
     execute := fun _ _ => ("", "", 0);
     urlopen := fun _ _ => HTTPStatusError |}.

(** The fuzzer exits and its diagnostic output holds the byte 0xff. *)
Definition binary_env : env :=
  {| get_container_name := None;
     communicate := fun _ _ => Exited [] [x45; xff];
     execute := fun _ _ => ("", "", 0);
     urlopen := fun _ _ => HTTPStatusError |}.

(** No connection to the storage host. *)
Definition offline_env : env :=
  {| get_container_name := None;
     communicate := fun _ _ => StillRunning;
     execute := fun _ _ => ("", "", 0);
     urlopen := fun _ _ => ConnectionFailure |}.

Definition first_archive : gmap string (list byte) := {[ "seed1" := [x01] ]}.
Definition second_archive : gmap string (list byte) := {[ "seed2" := [x02] ]}.

(** The first download gets [first_archive], the later ones
    [second_archive]. *)
Definition two_archives_env : env :=
  {| get_container_name := None;
     communicate := fun _ _ => StillRunning;
     execute := fun _ _ => ("", "", 0);
     urlopen := fun n _ =>
       Response (Zip (if (n =? 0)%nat then first_archive else second_archive)) |}.

(** A host where [/out] exists and is empty. *)
Definition out_world : world := initial_world {[ "/out" := ∅ ]}.

(** ** More vocabulary *)

(** All bytes below 128: what [bytes.decode('ascii')] accepts. *)
Definition is_ascii (data : list byte) : bool :=
  forallb (fun b => (Byte.to_N b <? 128)%N) data.

Fixpoint has_char (c : ascii) (s : string) : bool :=
  match s with
  | EmptyString => false
  | String d s' => bool_decide (d = c) || has_char c s'
  end.

(** A directory as the left part of a joined path: as it is when empty or
    ending in a slash, with a slash added otherwise. *)
Definition dir_prefix (dir : string) : string :=
  if negb (PyStr.nonempty dir) || PyStr.endswith_char dir PosixPath.sep
  then dir
  else dir +:+ "/".

(** What [fuzz] has done once [communicate] is over. *)
Definition launch_trace (self : FuzzTarget) (command : list string) : list event :=
  [Log INFO ("Fuzzer " +:+ target_name self +:+ ", started.");
   GetContainerName;
   Log INFO ("Running command: " +:+ PyStr.join " " command);
   Popen command;
   Communicate (duration self)].

(** ** More sample runs *)

(** The fuzzer exits with a crash that no confirmation trial repeats. *)
Definition flaky_env : env :=
  {| get_container_name := None;
     communicate := fun _ _ => Exited [] (String.list_byte_of_string crash_text);
     execute := fun _ _ => ("", "", 0);
     urlopen := fun _ _ => HTTPStatusError |}.

(** The fuzzer exits by itself and reports no test case. *)
Definition quiet_env : env :=
  {| get_container_name := Some "runner-1";
     communicate := fun _ _ => Exited [] (String.list_byte_of_string "Done 100 runs");
     execute := fun _ _ => ("", "", 0);
     urlopen := fun _ _ => Response NotAZip |}.

(** Every download gets [first_archive]. *)
Definition one_archive_env : env :=
  {| get_container_name := None;
     communicate := fun _ _ => StillRunning;
     execute := fun _ _ => ("", "", 0);
     urlopen := fun _ _ => Response (Zip first_archive) |}.

Example basename_ex : PosixPath.basename "/work/build/fuzz_a" = "fuzz_a".
Proof. reflexivity. Qed.

Example dirname_ex : PosixPath.dirname "/work/build/fuzz_a" = "/work/build".
Proof. reflexivity. Qed.

Example dirname_edge_ex :
  PosixPath.dirname "/a//b" = "/a" /\ PosixPath.dirname "//a" = "//" /\
  PosixPath.dirname "a" = "" /\ PosixPath.dirname "///" = "///" /\
  PosixPath.basename "/a/b/" = "".
Proof. repeat split. Qed.

Example join_ex :
  PosixPath.join "/out" ["corpus"; "fuzz_a"] = "/out/corpus/fuzz_a".
Proof. reflexivity. Qed.

Example join_absolute_ex : PosixPath.join "/out" ["/etc/passwd"] = "/etc/passwd".
Proof. reflexivity. Qed.

Example get_test_case_ex :
  get_test_case sample_target crash_text = Some "/out/crash-abc123".
Proof. vm_compute. reflexivity. Qed.

Example get_test_case_second_marker_ex :
  get_test_case sample_target
    "Test unit written to ./ Test unit written to ./b c" = Some "/out/b".
Proof. vm_compute. reflexivity. Qed.

Example fuzz_crash_ex :
  fst (fuzz crash_env sample_target (initial_world ∅))
  = Ret (Some "/out/crash-abc123", Some crash_text).
Proof. vm_compute. reflexivity. Qed.

(** Without a test case in the output the run ends in the [TypeError] of
    the logging call. *)
Example fuzz_no_test_case_ex :
  fst (fuzz binary_env
         {| target_name := "fuzz_a"; duration := 60; target_path := "/b/fuzz_a";
            out_dir := "/out"; project_name := None; corpus_dir := Some None |}
         (initial_world ∅))
  = Raise UnicodeDecodeError
  /\ fst (fuzz {| get_container_name := None;
                  communicate := fun _ _ => Exited [] [];
                  execute := fun _ _ => ("", "", 0);
                  urlopen := fun _ _ => HTTPStatusError |}
            sample_target (initial_world ∅))
     = Raise TypeError.
Proof. split; vm_compute; reflexivity. Qed.

(** ** Running the monad *)

Ltac run_in H :=
  repeat progress unfold bind, ret, raise, try_except, logging_info,
    logging_error, logging_error_file_kwarg, emit, utils_get_container_name,
    subprocess_Popen, process_communicate, os_path_exists, os_makedirs,
    urllib_urlopen_read, zipfile_ZipFile, zf_extractall, decode_ascii,
    getattr_corpus_dir in H;
  repeat progress cbn beta iota zeta delta
    [fs running executes fetches trace fst snd negb
     is_HTTPError is_TimeoutExpired] in H.

Ltac run :=
  repeat progress unfold bind, ret, raise, try_except, logging_info,
    logging_error, logging_error_file_kwarg, emit, utils_get_container_name,
    subprocess_Popen, process_communicate, os_path_exists, os_makedirs,
    urllib_urlopen_read, zipfile_ZipFile, zf_extractall, decode_ascii,
    getattr_corpus_dir;
  repeat progress cbn beta iota zeta delta
    [fs running executes fetches trace fst snd negb
     is_HTTPError is_TimeoutExpired].

(** ** Text lemmas *)

Lemma append_nil_l (s : string) : "" +:+ s = s.
Proof. reflexivity. Qed.

Lemma append_cons (c : ascii) (p s : string) :
  String c p +:+ s = String c (p +:+ s).
Proof. reflexivity. Qed.

Lemma append_inj_l (p s t : string) : p +:+ s = p +:+ t -> s = t.
Proof.
  induction p as [|c p IH]; [done|]. rewrite !append_cons. intros [= H]. auto.
Qed.

Module PatternFacts.
Import Pattern.

Lemma marker_head (rest : string) :
  marker +:+ rest = String "T" ("est unit written to ./" +:+ rest).
Proof. reflexivity. Qed.

Lemma literal_Some lit : forall s rest,
  literal lit s = Some rest <-> s = lit +:+ rest.
Proof.
  induction lit as [|c lit IH]; intros s rest; cbn [literal].
  - rewrite append_nil_l. split; congruence.
  - rewrite append_cons. destruct s as [|d s].
    + split; discriminate.
    + case_bool_decide as Hcd.
      * subst d. rewrite IH. split; congruence.
      * split; [discriminate|]. intros [= ? ?]. done.
Qed.

Lemma nonspace_run_nonempty rest :
  PyStr.nonempty (nonspace_run rest) = starts_nonspace rest.
Proof.
  destruct rest as [|c rest]; cbn; [done|]. by destruct (PyStr.isspace c).
Qed.

(** The group is the longest run of non-space characters: what follows
    it, if anything, starts with white space. *)
Lemma nonspace_run_longest rest :
  exists post,
    rest = nonspace_run rest +:+ post /\
    no_space (nonspace_run rest) = true /\
    starts_nonspace post = false.
Proof.
  induction rest as [|c rest (post & Hsplit & Hrun & Hpost)].
  - by exists "".
  - cbn [nonspace_run]. destruct (PyStr.isspace c) eqn:Hc.
    + exists (String c rest). cbn. by rewrite Hc.
    + exists post. rewrite append_cons, <- Hsplit. cbn. by rewrite Hc, Hrun.
Qed.

(** The marker starts with a word character, so [\b] in front of it asks
    for the start of the text or a non-word character. *)
Lemma word_boundary_marker prev rest :
  word_boundary prev (marker +:+ rest) = nonword prev.
Proof.
  rewrite marker_head. unfold word_boundary, nonword.
  change (PyStr.isword "T") with true.
  destruct prev as [c|]; [|done]. by destruct (PyStr.isword c).
Qed.

Lemma match_at_Some prev s g :
  match_at prev s = Some g <->
  exists rest,
    s = marker +:+ rest /\ qualifies prev "" rest /\ g = nonspace_run rest.
Proof.
  unfold match_at, qualifies. cbn [char_before]. split.
  - destruct (word_boundary prev s) eqn:Hb; [|discriminate].
    destruct (literal marker s) as [rest|] eqn:Hl; [|discriminate].
    apply literal_Some in Hl. subst s. rewrite word_boundary_marker in Hb.
    rewrite nonspace_run_nonempty.
    destruct (starts_nonspace rest) eqn:Hs; [|discriminate].
    intros [= <-]. by exists rest.
  - intros (rest & -> & [Hb Hs] & ->).
    rewrite word_boundary_marker, Hb.
    rewrite (proj2 (literal_Some marker _ rest) eq_refl).
    by rewrite nonspace_run_nonempty, Hs.
Qed.

Lemma match_at_here prev s rest :
  s = marker +:+ rest -> qualifies prev "" rest ->
  match_at prev s = Some (nonspace_run rest).
Proof. intros Hs Hq. apply match_at_Some. by exists rest. Qed.

(** [search_from] finds the leftmost occurrence that counts, and only
    that one. *)
Lemma search_from_Some s : forall prev g,
  search_from prev s = Some g <->
  exists pre rest, first_match prev s pre rest /\ g = nonspace_run rest.
Proof.
  induction s as [|c s IH]; intros prev g.
  - cbn [search_from]. destruct (match_at prev "") as [g0|] eqn:Hm.
    + apply match_at_Some in Hm as (rest & Hs & _). discriminate.
    + split; [discriminate|]. intros (pre & rest & (Hs & _) & _).
      destruct pre; discriminate.
  - cbn [search_from]. destruct (match_at prev (String c s)) as [g0|] eqn:Hm.
    + apply match_at_Some in Hm as (rest & Hs & Hq & ->). split.
      * intros [= <-]. exists "", rest. split; [|done].
        split; [done|]. split; [done|]. intros; cbn; lia.
      * intros (pre & rest' & (Hs' & Hq' & Hmin) & ->).
        specialize (Hmin "" rest Hs Hq). cbn in Hmin.
        destruct pre; [|cbn in Hmin; lia].
        rewrite append_nil_l in Hs'. rewrite Hs in Hs'.
        apply append_inj_l in Hs'. by subst.
    + rewrite IH. split.
      * intros (pre & rest & (Hs & Hq & Hmin) & ->).
        exists (String c pre), rest. split; [|done].
        split; [by rewrite append_cons, Hs|].
        split; [exact Hq|]. intros pre' rest' Hs' Hq'.
        destruct pre' as [|c' pre'].
        -- exfalso. rewrite append_nil_l in Hs'.
           pose proof (match_at_here prev _ rest' Hs' Hq'). congruence.
        -- rewrite append_cons in Hs'. injection Hs' as <- Hs'. cbn.
           specialize (Hmin pre' rest' Hs' Hq'). lia.
      * intros (pre & rest & (Hs & Hq & Hmin) & ->).
        destruct pre as [|c' pre].
        -- exfalso. rewrite append_nil_l in Hs.
           pose proof (match_at_here prev _ rest Hs Hq). congruence.
        -- rewrite append_cons in Hs. injection Hs as <- Hs. exists pre, rest.
           split; [|done]. split; [done|]. split; [exact Hq|].
           intros pre' rest' Hs' Hq'.
           specialize (Hmin (String c pre') rest'). rewrite append_cons in Hmin.
           rewrite Hs' in Hmin. specialize (Hmin eq_refl Hq'). cbn in Hmin. lia.
Qed.

End PatternFacts.

(** ** Artifact extraction *)

(** C2, as the code has it: [get_test_case] returns a path exactly when the
    text holds the marker at a word boundary (at the start of the text or
    after a non-word character) followed by a character that is not white
    space; the path is then the output directory joined with the longest
    non-space run after the first such occurrence.  In particular a text
    without the marker gives [None]. *)
Theorem get_test_case_first_boundary_match (self : FuzzTarget) (text : string) :
  ((forall pre rest, text <> pre +:+ Pattern.marker +:+ rest) ->
   get_test_case self text = None) /\
  (forall p,
     get_test_case self text = Some p <->
     exists pre rest,
       first_match None text pre rest /\
       p = PosixPath.join (out_dir self) [Pattern.nonspace_run rest]).
Proof.
  assert (Hiff : forall p,
     get_test_case self text = Some p <->
     exists pre rest,
       first_match None text pre rest /\
       p = PosixPath.join (out_dir self) [Pattern.nonspace_run rest]).
  { intros p. unfold get_test_case, Pattern.search.
    destruct (Pattern.search_from None text) as [g|] eqn:Hs.
    - apply PatternFacts.search_from_Some in Hs as (pre & rest & Hfm & ->).
      split.
      + intros [= <-]. by exists pre, rest.
      + intros (pre' & rest' & Hfm' & ->).
        destruct Hfm as (Ht & Hq & Hmin), Hfm' as (Ht' & Hq' & Hmin').
        assert (Some (Pattern.nonspace_run rest') = Some (Pattern.nonspace_run rest)) as [= ->]; [|done].
        rewrite <- (proj2 (PatternFacts.search_from_Some text None _)
                      (ex_intro _ pre (ex_intro _ rest (conj (conj Ht (conj Hq Hmin)) eq_refl)))).
        symmetry. apply PatternFacts.search_from_Some. exists pre', rest'. done.
    - split; [discriminate|]. intros (pre & rest & Hfm & _). exfalso.
      assert (Pattern.search_from None text = Some (Pattern.nonspace_run rest)) as Hc.
      { apply PatternFacts.search_from_Some. by exists pre, rest. }
      congruence. }
  split; [|exact Hiff].
  intros Hno. destruct (get_test_case self text) as [p|] eqn:Hp; [|done].
  destruct (proj1 (Hiff p) eq_refl) as (pre & rest & (Ht & _) & _).
  by destruct (Hno pre rest).
Qed.

Lemma get_test_case_first_boundary_match_witness :
  exists pre rest,
    first_match None crash_text pre rest /\
    "/out/crash-abc123" = PosixPath.join "/out" [Pattern.nonspace_run rest].
Proof.
  apply (proj1 (proj2 (get_test_case_first_boundary_match sample_target crash_text)
                  "/out/crash-abc123")).
  vm_compute. reflexivity.
Defined.

(** C2, as stated, fails: the marker right after a word character is not
    matched, although it is followed by a non-whitespace path. *)
Lemma get_test_case_mid_word_counterexample :
  (exists pre rest,
     "xTest unit written to ./crash-abc123" = pre +:+ Pattern.marker +:+ rest /\
     starts_nonspace rest = true) /\
  claimed_get_test_case sample_target "xTest unit written to ./crash-abc123"
    = Some "/out/crash-abc123" /\
  get_test_case sample_target "xTest unit written to ./crash-abc123" = None.
Proof.
  split; [|split; vm_compute; reflexivity].
  exists "x", "crash-abc123". split; reflexivity.
Qed.


(** ** Crash confirmation *)

Section Confirmation.

Variables (e : env) (command : list string).

Lemma trial_code_shift w w1 k :
  executes w1 = S (executes w) ->
  trial_code e command w1 k = trial_code e command w (S k).
Proof.
  intros H. unfold trial_code. rewrite H.
  by replace (S (executes w) + k)%nat with (executes w + S k)%nat by lia.
Qed.

Lemma trial_code_first w :
  trial_code e command w 0 = snd (execute e (executes w) command).
Proof. unfold trial_code. by rewrite Nat.add_0_r. Qed.

Lemma reproduce_loop_all_zero n : forall w,
  (forall j, (j < n)%nat -> trial_code e command w j = 0) ->
  exists w',
    reproduce_loop e command n w = (Ret false, w') /\
    executes w' = (executes w + n)%nat /\
    trace w' = trace w ++ replicate n (Execute command).
Proof.
  induction n as [|n IH]; intros w Hz.
  - exists w. cbn. by rewrite Nat.add_0_r, app_nil_r.
  - cbn [reproduce_loop]. unfold bind at 1. cbn [utils_execute].
    pose proof (Hz 0%nat ltac:(lia)) as H0. rewrite trial_code_first in H0.
    destruct (execute e (executes w) command) as [[so se] code].
    cbn in H0. subst code. cbn [truthy_int Z.eqb negb].
    match goal with |- context [reproduce_loop e command n ?w1] =>
      destruct (IH w1) as (w' & Hrun & Hex & Htr) end.
    { intros j Hj. rewrite (trial_code_shift w) by done. apply Hz. lia. }
    exists w'. split; [exact Hrun|]. cbn in Hex, Htr. split; [lia|].
    by rewrite Htr, <- app_assoc.
Qed.

Lemma reproduce_loop_first_nonzero n : forall w k,
  (k < n)%nat ->
  (forall j, (j < k)%nat -> trial_code e command w j = 0) ->
  trial_code e command w k <> 0 ->
  exists w',
    reproduce_loop e command n w = (Ret true, w') /\
    executes w' = (executes w + S k)%nat /\
    trace w' = trace w ++ replicate (S k) (Execute command).
Proof.
  induction n as [|n IH]; intros w k Hk Hz Hnz; [lia|].
  cbn [reproduce_loop]. unfold bind at 1. cbn [utils_execute].
  destruct k as [|k].
  - rewrite trial_code_first in Hnz.
    destruct (execute e (executes w) command) as [[so se] code].
    cbn in Hnz. unfold truthy_int.
    destruct (Z.eqb_spec code 0) as [->|_]; [done|]. cbn [negb].
    eexists. split; [reflexivity|]. cbn. split; [lia|done].
  - pose proof (Hz 0%nat ltac:(lia)) as H0. rewrite trial_code_first in H0.
    destruct (execute e (executes w) command) as [[so se] code].
    cbn in H0. subst code. cbn [truthy_int Z.eqb negb].
    match goal with |- context [reproduce_loop e command n ?w1] =>
      destruct (IH w1 k) as (w' & Hrun & Hex & Htr) end.
    { lia. }
    { intros j Hj. rewrite (trial_code_shift w) by done. apply Hz. lia. }
    { by rewrite (trial_code_shift w). }
    exists w'. split; [exact Hrun|]. cbn in Hex, Htr. split; [lia|].
    by rewrite Htr, <- app_assoc.
Qed.

Lemma reproduce_loop_bounded n : forall w,
  (executes (snd (reproduce_loop e command n w)) <= executes w + n)%nat.
Proof.
  induction n as [|n IH]; intros w; [cbn; lia|].
  cbn [reproduce_loop]. unfold bind at 1. cbn [utils_execute].
  destruct (execute e (executes w) command) as [[so se] code].
  destruct (truthy_int code); [cbn; lia|].
  match goal with |- context [reproduce_loop e command n ?w1] =>
    specialize (IH w1) end.
  cbn in IH. lia.
Qed.

Lemma reproduce_loop_true_inv n : forall w w',
  reproduce_loop e command n w = (Ret true, w') ->
  exists k, (k < n)%nat /\ trial_code e command w k <> 0.
Proof.
  induction n as [|n IH]; intros w w' H; [discriminate|].
  cbn [reproduce_loop] in H. unfold bind in H at 1. cbn [utils_execute] in H.
  destruct (execute e (executes w) command) as [[so se] code] eqn:Hex.
  unfold truthy_int in H.
  destruct (Z.eqb_spec code 0) as [->|Hne]; cbn [negb] in H.
  - apply IH in H as (k & Hk & Hnz). exists (S k). split; [lia|].
    by rewrite (trial_code_shift w) in Hnz.
  - exists 0%nat. split; [lia|]. by rewrite trial_code_first, Hex.
Qed.

End Confirmation.

(** C3: a confirmation runs at most 10 trials; the first trial that sees a
    nonzero exit code makes it return true at once, the later trials are
    not run; ten trials with exit code 0 make it return false. *)
Theorem is_reproducible_trials (e : env) (self : FuzzTarget)
    (test_case : string) (w : world) :
  let command := reproduce_command self test_case in
  let r := is_reproducible e self test_case w in
  (executes (snd r) <= executes w + 10)%nat /\
  (forall k, (k < 10)%nat ->
     (forall j, (j < k)%nat -> trial_code e command w j = 0) ->
     trial_code e command w k <> 0 ->
     fst r = Ret true /\
     executes (snd r) = (executes w + S k)%nat /\
     trace (snd r) = trace w ++ replicate (S k) (Execute command)) /\
  ((forall j, (j < 10)%nat -> trial_code e command w j = 0) ->
     fst r = Ret false /\
     executes (snd r) = (executes w + 10)%nat /\
     trace (snd r) = trace w ++ replicate 10 (Execute command)).
Proof.
  intros command r. subst r. unfold is_reproducible. fold command.
  change REPRODUCE_ATTEMPTS with 10%nat. split_and!.
  - apply reproduce_loop_bounded.
  - intros k Hk Hz Hnz.
    destruct (reproduce_loop_first_nonzero e command 10 w k Hk Hz Hnz)
      as (w' & -> & Hex & Htr).
    done.
  - intros Hz.
    destruct (reproduce_loop_all_zero e command 10 w Hz) as (w' & -> & Hex & Htr).
    done.
Qed.

Lemma is_reproducible_trials_witness :
  fst (is_reproducible crash_env sample_target "/out/crash-abc123" (initial_world ∅))
    = Ret true /\
  executes (snd (is_reproducible crash_env sample_target "/out/crash-abc123"
                   (initial_world ∅))) = 3%nat.
Proof.
  destruct (is_reproducible_trials crash_env sample_target "/out/crash-abc123"
              (initial_world ∅)) as (_ & Hfirst & _).
  destruct (Hfirst 2%nat) as (Hret & Hex & _).
  - lia.
  - intros [|[|j]] Hj; [reflexivity|reflexivity|lia].
  - vm_compute. discriminate.
  - split; [exact Hret|exact Hex].
Defined.

(** ** The fuzz run *)

(** C1: when [fuzz] returns anything but [(None, None)], it returns a test
    case extracted from the decoded output together with that output, and
    [is_reproducible] has just returned true for that test case, one of its
    trials having seen a nonzero exit code. *)
Theorem fuzz_reports_confirmed_crash_only (e : env) (self : FuzzTarget)
    (w w' : world) (test_case stack_trace : option string) :
  fuzz e self w = (Ret (test_case, stack_trace), w') ->
  test_case <> None \/ stack_trace <> None ->
  exists tc err_str w0,
    test_case = Some tc /\ stack_trace = Some err_str /\
    get_test_case self err_str = Some tc /\
    executes w0 = executes w /\
    is_reproducible e self tc w0 = (Ret true, w') /\
    exists k, (k < REPRODUCE_ATTEMPTS)%nat /\
              trial_code e (reproduce_command self tc) w k <> 0.
Proof.
  intros Hrun Hsome. unfold fuzz in Hrun. run_in Hrun.
  destruct (corpus_dir self) as [c|] eqn:Hc; [|discriminate].
  run_in Hrun.
  destruct (communicate e _ _) as [out err|] eqn:Hcomm.
  - run_in Hrun.
    destruct (forallb _ err) eqn:Hascii; [|discriminate].
    run_in Hrun.
    destruct (get_test_case self _) as [tc|] eqn:Htc; [|discriminate].
    cbn [truthy_str] in Hrun.
    destruct (PyStr.nonempty tc) eqn:Hne; [|discriminate].
    cbn [negb default from_option id] in Hrun.
    match type of Hrun with context [is_reproducible e self tc ?w1] =>
      destruct (is_reproducible e self tc w1) as [[[|]|x] w2] eqn:Hrep end;
      try discriminate.
    + injection Hrun as <- <- <-.
      eexists tc, _, _.
      split; [reflexivity|]. split; [reflexivity|]. split; [exact Htc|].
      split; [|split; [exact Hrep|]].
      * reflexivity.
      * apply reproduce_loop_true_inv in Hrep as (k & Hk & Hnz).
        exists k. split; [exact Hk|]. exact Hnz.
    + injection Hrun as <- <- _. destruct Hsome; congruence.
  - injection Hrun as <- <- _. destruct Hsome; congruence.
Qed.

Lemma fuzz_reports_confirmed_crash_only_witness :
  exists tc err_str w0,
    Some "/out/crash-abc123" = Some tc /\ Some crash_text = Some err_str /\
    get_test_case sample_target err_str = Some tc /\
    executes w0 = executes (initial_world ∅) /\
    is_reproducible crash_env sample_target tc w0
      = (Ret true, snd (fuzz crash_env sample_target (initial_world ∅))) /\
    exists k, (k < REPRODUCE_ATTEMPTS)%nat /\
              trial_code crash_env (reproduce_command sample_target tc)
                (initial_world ∅) k <> 0.
Proof.
  apply (fuzz_reports_confirmed_crash_only crash_env sample_target
           (initial_world ∅) (snd (fuzz crash_env sample_target (initial_world ∅)))
           (Some "/out/crash-abc123") (Some crash_text)).
  - vm_compute. reflexivity.
  - left. discriminate.
Defined.

(** C4, as the code has it: when the process is still running at the
    deadline, [fuzz] logs the timeout and returns [(None, None)] without
    raising, without reading any output and without a confirmation trial;
    the child is left running, [fuzz] does not terminate it. *)
Theorem fuzz_timeout (e : env) (self : FuzzTarget) (w : world) (c : option string) :
  corpus_dir self = Some c ->
  communicate e (fuzz_command self (get_container_name e) c) (duration self)
    = StillRunning ->
  let command := fuzz_command self (get_container_name e) c in
  let r := fuzz e self w in
  fst r = Ret (None, None) /\
  trace (snd r) = trace w ++
    [Log INFO ("Fuzzer " +:+ target_name self +:+ ", started.");
     GetContainerName;
     Log INFO ("Running command: " +:+ PyStr.join " " command);
     Popen command;
     Communicate (duration self);
     Log INFO ("Fuzzer " +:+ target_name self +:+ ", finished with timeout.")] /\
  running (snd r) = command :: running w /\
  executes (snd r) = executes w.
Proof.
  intros Hc Ht command r. subst r command. unfold fuzz. run. rewrite Hc. run.
  rewrite Ht. run. rewrite <- !app_assoc. done.
Qed.

Lemma fuzz_timeout_witness :
  fst (fuzz timeout_env sample_target (initial_world ∅)) = Ret (None, None) /\
  running (snd (fuzz timeout_env sample_target (initial_world ∅)))
  = [fuzz_command sample_target None None].
Proof.
  destruct (fuzz_timeout timeout_env sample_target (initial_world ∅) None)
    as (Hret & _ & Hrun & _).
  - reflexivity.
  - reflexivity.
  - split; [exact Hret|exact Hrun].
Defined.

(** C4, as stated, fails: after a timed-out run the child is still among
    the running processes. *)
Lemma fuzz_timeout_child_survives_counterexample :
  fst (fuzz timeout_env sample_target (initial_world ∅)) = Ret (None, None) /\
  running (initial_world ∅) = [] /\
  running (snd (fuzz timeout_env sample_target (initial_world ∅)))
  = [["docker"; "run"; "--rm"; "--privileged"; "-v"; "/out:/out"; "-e";
      "FUZZING_ENGINE=libfuzzer"; "-e"; "SANITIZER=address"; "-e";
      "RUN_FUZZER_MODE=interactive"; "gcr.io/oss-fuzz-base/base-runner";
      "bash"; "-c"; "run_fuzzer fuzz_a -seed=1337 -len_control=0"]].
Proof. split_and!; vm_compute; reflexivity. Qed.

(** C8: on a freshly constructed target [fuzz] raises [AttributeError],
    before any process is started. *)
Theorem fuzz_without_corpus_dir (e : env) (target_path : string) (duration : Z)
    (out_dir : string) (project_name : option string) (w : world) :
  fst (fuzz e (init target_path duration out_dir project_name) w)
    = Raise AttributeError /\
  running (snd (fuzz e (init target_path duration out_dir project_name) w))
    = running w.
Proof. done. Qed.

(** C9: when the process exits in time and its diagnostic output holds a
    byte above 127, [fuzz] raises [UnicodeDecodeError]. *)
Theorem fuzz_non_ascii_output (e : env) (self : FuzzTarget) (w : world)
    (c : option string) (out err : list byte) :
  corpus_dir self = Some c ->
  communicate e (fuzz_command self (get_container_name e) c) (duration self)
    = Exited out err ->
  (exists b, In b err /\ (128 <= Byte.to_N b)%N) ->
  fst (fuzz e self w) = Raise UnicodeDecodeError.
Proof.
  intros Hc Hx (b & Hin & Hb). unfold fuzz. run. rewrite Hc. run. rewrite Hx. run.
  destruct (forallb _ err) eqn:Hall; [|done].
  rewrite forallb_forall in Hall. specialize (Hall b Hin).
  apply N.ltb_lt in Hall. lia.
Qed.

Lemma fuzz_non_ascii_output_witness :
  fst (fuzz binary_env sample_target (initial_world ∅)) = Raise UnicodeDecodeError.
Proof.
  apply (fuzz_non_ascii_output binary_env sample_target (initial_world ∅)
           None [] [x45; xff]).
  - reflexivity.
  - reflexivity.
  - exists xff. split; [right; left; reflexivity|vm_compute; discriminate].
Defined.

(** ** Corpus acquisition *)

(** A download that succeeds writes the members over the directory and
    keeps the other files. *)
Lemma download_success (e : env) (self : FuzzTarget) (w : world)
    (a : gmap string (list byte)) :
  truthy_str (project_name self) = true ->
  is_Some (fs w !! out_dir self) ->
  urlopen e (fetches w) (corpus_url self) = Response (Zip a) ->
  exists w',
    download_latest_corpus e self w = (Ret (Some (corpus_path self)), w') /\
    fs w' = <[corpus_path self := a ∪ listing w (corpus_path self)]> (fs w) /\
    fetches w' = S (fetches w).
Proof.
  intros Hp Hout Hurl. unfold download_latest_corpus. rewrite Hp. run.
  rewrite bool_decide_eq_true_2 by done. run.
  fold (corpus_path self). fold (corpus_url self). rewrite Hurl. run.
  eexists. split; [reflexivity|]. run. split; [|done].
  unfold listing. destruct (fs w !! corpus_path self) as [d|] eqn:Hd.
  - by rewrite Hd.
  - by rewrite lookup_insert_eq, insert_insert_eq.
Qed.

(** The path the method does handle: an HTTP error status is logged, the
    result is [None] and the corpus directory holds what it held. *)
Lemma download_http_error (e : env) (self : FuzzTarget) (w : world) :
  truthy_str (project_name self) = true ->
  is_Some (fs w !! out_dir self) ->
  urlopen e (fetches w) (corpus_url self) = HTTPStatusError ->
  fst (download_latest_corpus e self w) = Ret None /\
  listing (snd (download_latest_corpus e self w)) (corpus_path self)
  = listing w (corpus_path self).
Proof.
  intros Hp Hout Hurl. unfold download_latest_corpus. rewrite Hp. run.
  rewrite bool_decide_eq_true_2 by done. run.
  fold (corpus_path self). fold (corpus_url self). rewrite Hurl. run.
  split; [done|]. unfold listing.
  destruct (fs w !! corpus_path self) as [d|] eqn:Hd.
  - cbn [fs]. by rewrite Hd.
  - cbn [fs]. by rewrite lookup_insert_eq.
Qed.

(** C5 fails on the code: a transport error that is not an HTTP error
    status (no connection, no such host) is not caught, and
    [download_latest_corpus] raises [URLError] instead of returning
    [None]. *)
Theorem download_connection_failure_raises (e : env) (self : FuzzTarget) (w : world) :
  truthy_str (project_name self) = true ->
  is_Some (fs w !! out_dir self) ->
  urlopen e (fetches w) (corpus_url self) = ConnectionFailure ->
  fst (download_latest_corpus e self w) = Raise URLError.
Proof.
  intros Hp Hout Hurl. unfold download_latest_corpus. rewrite Hp. run.
  rewrite bool_decide_eq_true_2 by done. run.
  fold (corpus_url self). by rewrite Hurl.
Qed.

Lemma download_connection_failure_raises_witness :
  fst (download_latest_corpus offline_env project_target out_world) = Raise URLError.
Proof.
  apply (download_connection_failure_raises offline_env project_target out_world).
  - reflexivity.
  - exists ∅. vm_compute. reflexivity.
  - reflexivity.
Defined.

(** C6, as the code has it: after two downloads in succession the corpus
    directory holds the second archive's members, and below them whatever
    the first download left there: a member of the second archive replaces
    a file of the same name, every other file stays. *)
Theorem download_twice_merges (e : env) (self : FuzzTarget) (w : world)
    (a1 a2 : gmap string (list byte)) :
  truthy_str (project_name self) = true ->
  is_Some (fs w !! out_dir self) ->
  urlopen e (fetches w) (corpus_url self) = Response (Zip a1) ->
  urlopen e (S (fetches w)) (corpus_url self) = Response (Zip a2) ->
  let r1 := download_latest_corpus e self w in
  let r2 := download_latest_corpus e self (snd r1) in
  fst r1 = Ret (Some (corpus_path self)) /\
  fst r2 = Ret (Some (corpus_path self)) /\
  fs (snd r2) !! corpus_path self
    = Some (a2 ∪ (a1 ∪ listing w (corpus_path self))) /\
  (forall name data, a2 !! name = Some data ->
     listing (snd r2) (corpus_path self) !! name = Some data) /\
  (forall name data, a2 !! name = None -> a1 !! name = Some data ->
     listing (snd r2) (corpus_path self) !! name = Some data).
Proof.
  intros Hp Hout H1 H2 r1 r2.
  destruct (download_success e self w a1 Hp Hout H1) as (w1 & Hr1 & Hfs1 & Hft1).
  assert (Hout1 : is_Some (fs w1 !! out_dir self)).
  { rewrite Hfs1, lookup_insert. case_decide; [by eexists|done]. }
  rewrite <- Hft1 in H2.
  destruct (download_success e self w1 a2 Hp Hout1 H2) as (w2 & Hr2 & Hfs2 & Hft2).
  subst r2 r1. rewrite Hr1. cbn [fst snd]. rewrite Hr2. cbn [fst snd].
  assert (Hdir : fs w2 !! corpus_path self
                 = Some (a2 ∪ (a1 ∪ listing w (corpus_path self)))).
  { rewrite Hfs2, lookup_insert_eq. unfold listing at 1.
    by rewrite Hfs1, lookup_insert_eq. }
  split_and!; try done.
  - intros name data Hn. unfold listing. rewrite Hdir. cbn.
    by apply lookup_union_Some_l.
  - intros name data Hn2 Hn1. unfold listing at 1. rewrite Hdir. cbn.
    rewrite lookup_union_r by done. by apply lookup_union_Some_l.
Qed.

Lemma download_twice_merges_witness :
  fs (snd (download_latest_corpus two_archives_env project_target
             (snd (download_latest_corpus two_archives_env project_target out_world))))
    !! corpus_path project_target
  = Some (second_archive ∪ (first_archive ∪ listing out_world (corpus_path project_target))).
Proof.
  destruct (download_twice_merges two_archives_env project_target out_world
              first_archive second_archive) as (_ & _ & Hdir & _).
  - reflexivity.
  - exists ∅. vm_compute. reflexivity.
  - reflexivity.
  - reflexivity.
  - exact Hdir.
Defined.

(** C6, as stated, fails: a file that only the first archive holds is
    still in the corpus directory after the second download. *)
Lemma download_twice_keeps_old_counterexample :
  second_archive !! "seed1" = None /\
  listing
    (snd (download_latest_corpus two_archives_env project_target
            (snd (download_latest_corpus two_archives_env project_target out_world))))
    "/out/corpus/fuzz_a" !! "seed1" = Some [x01].
Proof. split; vm_compute; reflexivity. Qed.

(** C7: without a project name [download_latest_corpus] returns [None] and
    leaves the world as it was: nothing is fetched, looked up or logged. *)
Theorem download_without_project (e : env) (self : FuzzTarget) (w : world) :
  project_name self = None ->
  download_latest_corpus e self w = (Ret None, w).
Proof. intros H. unfold download_latest_corpus. by rewrite H. Qed.

Lemma download_without_project_witness :
  download_latest_corpus offline_env (init "/work/build/fuzz_a" 60 "/out" None) out_world
  = (Ret None, out_world).
Proof.
  apply (download_without_project offline_env
           (init "/work/build/fuzz_a" 60 "/out" None) out_world).
  reflexivity.
Defined.

(** C10: when the output directory does not exist,
    [download_latest_corpus] returns [None] without raising; it fetches
    nothing and leaves the file system as it was. *)
Theorem download_without_out_dir (e : env) (self : FuzzTarget) (w : world) :
  fs w !! out_dir self = None ->
  let r := download_latest_corpus e self w in
  fst r = Ret None /\
  fetches (snd r) = fetches w /\
  fs (snd r) = fs w /\
  forall url, Urlopen url ∉ drop (length (trace w)) (trace (snd r)).
Proof.
  intros H r. subst r. unfold download_latest_corpus.
  destruct (truthy_str (project_name self)); cbn [negb].
  - run. rewrite H. rewrite bool_decide_eq_false_2 by (intros [? ?]; done).
    run. split_and!; try done.
    intros url. rewrite <- app_assoc, drop_app_length.
    cbn [app]. rewrite !not_elem_of_cons. split_and!; try done.
    apply not_elem_of_nil.
  - run. split_and!; try done. intros url. rewrite drop_all.
    apply not_elem_of_nil.
Qed.

Lemma download_without_out_dir_witness :
  fst (download_latest_corpus offline_env project_target (initial_world ∅)) = Ret None /\
  fetches (snd (download_latest_corpus offline_env project_target (initial_world ∅)))
  = 0%nat.
Proof.
  destruct (download_without_out_dir offline_env project_target (initial_world ∅))
    as (Hret & Hft & _).
  - reflexivity.
  - split; [exact Hret|exact Hft].
Defined.

(** ** More on the fuzz run *)

Lemma trial_code_same_count (e : env) (command : list string) (w w0 : world) (k : nat) :
  executes w0 = executes w ->
  trial_code e command w0 k = trial_code e command w k.
Proof. intros H. unfold trial_code. by rewrite H. Qed.

Lemma remove_child_head (command : list string) (l : list (list string)) :
  remove_child command (command :: l) = l.
Proof. cbn. by rewrite bool_decide_eq_true_2. Qed.

(** A confirmation always returns, after at most [n] more calls, and
    touches nothing but the call count and the trace. *)
Lemma reproduce_loop_returns (e : env) (command : list string) (n : nat) : forall w,
  exists b w',
    reproduce_loop e command n w = (Ret b, w') /\
    (executes w <= executes w' <= executes w + n)%nat /\
    fs w' = fs w /\ running w' = running w /\ fetches w' = fetches w.
Proof.
  induction n as [|n IH]; intros w.
  - exists false, w. cbn. split_and!; try done; lia.
  - cbn [reproduce_loop]. unfold bind at 1. cbn [utils_execute].
    destruct (execute e (executes w) command) as [[so se] code].
    destruct (truthy_int code).
    + eexists true, _. split; [reflexivity|]. cbn. split_and!; try done; lia.
    + match goal with |- context [reproduce_loop e command n ?w1] =>
        destruct (IH w1) as (b & w' & Hrun & Hex & Hfs & Hrn & Hft) end.
      exists b, w'. split; [exact Hrun|]. cbn in Hex, Hfs, Hrn, Hft.
      split_and!; try done; lia.
Qed.

(** The matched group is never empty, so neither is the joined path. *)
Lemma join_step_nonempty (path b : string) :
  PyStr.nonempty b = true -> PyStr.nonempty (PosixPath.join_step path b) = true.
Proof.
  intros Hb. unfold PosixPath.join_step.
  destruct (PyStr.startswith "/" b); [done|].
  destruct (negb (PyStr.nonempty path) || PyStr.endswith_char path PosixPath.sep).
  - destruct path; [by rewrite append_nil_l|by rewrite append_cons].
  - destruct path; [by rewrite append_nil_l|by rewrite append_cons].
Qed.

Lemma search_from_nonempty s : forall prev g,
  Pattern.search_from prev s = Some g ->
  PyStr.nonempty g = true /\ no_space g = true.
Proof.
  intros prev g Hs.
  apply PatternFacts.search_from_Some in Hs as (pre & rest & (_ & [_ Hq] & _) & ->).
  rewrite PatternFacts.nonspace_run_nonempty.
  destruct (PatternFacts.nonspace_run_longest rest) as (post & _ & Hns & _).
  done.
Qed.

Lemma get_test_case_Some_nonempty (self : FuzzTarget) (text p : string) :
  get_test_case self text = Some p -> PyStr.nonempty p = true.
Proof.
  unfold get_test_case, Pattern.search.
  destruct (Pattern.search_from None text) as [g|] eqn:Hs; [|discriminate].
  intros [= <-]. apply search_from_nonempty in Hs as [Hne _].
  cbn. by apply join_step_nonempty.
Qed.

(** The run of [fuzz] up to the confirmation, when the process has exited
    with ASCII output that names a test case. *)
Lemma fuzz_exit_with_test_case (e : env) (self : FuzzTarget) (w : world)
    (c : option string) (out err : list byte) (tc : string) :
  corpus_dir self = Some c ->
  communicate e (fuzz_command self (get_container_name e) c) (duration self)
    = Exited out err ->
  is_ascii err = true ->
  get_test_case self (String.string_of_list_byte err) = Some tc ->
  exists w0,
    executes w0 = executes w /\ fetches w0 = fetches w /\
    running w0 = running w /\
    trace w0 = trace w
               ++ launch_trace self (fuzz_command self (get_container_name e) c)
               ++ [Log INFO ("Fuzzer " +:+ target_name self +:+ ", ended before timeout.")] /\
    fuzz e self w =
      (reproducible <- is_reproducible e self tc ;;
       if reproducible then ret (Some tc, Some (String.string_of_list_byte err))
       else logging_error "A crash was found but it was not reproducible." ;;;
            ret (None, None)) w0.
Proof.
  intros Hc Hx Ha Htc. pose proof (get_test_case_Some_nonempty _ _ _ Htc) as Hne.
  eexists {| fs := fs w; running := running w; executes := executes w;
             fetches := fetches w; trace := _ |}.
  split_and!; [reflexivity|reflexivity|reflexivity|reflexivity|].
  unfold fuzz. run. rewrite Hc. run. rewrite Hx. run.
  unfold is_ascii in Ha. rewrite Ha. run. rewrite Htc. cbn [truthy_str].
  rewrite Hne. cbn [negb default from_option id].
  rewrite remove_child_head. unfold launch_trace. rewrite <- !app_assoc. cbn [app].
  reflexivity.
Qed.

(** X1: when the process exits in time with ASCII output that names no
    test case, [fuzz] does not return: the logging call with the keyword
    [file] raises [TypeError]; no confirmation trial is run. *)
Theorem fuzz_no_test_case_raises (e : env) (self : FuzzTarget) (w : world)
    (c : option string) (out err : list byte) :
  corpus_dir self = Some c ->
  communicate e (fuzz_command self (get_container_name e) c) (duration self)
    = Exited out err ->
  is_ascii err = true ->
  get_test_case self (String.string_of_list_byte err) = None ->
  fst (fuzz e self w) = Raise TypeError /\
  executes (snd (fuzz e self w)) = executes w /\
  running (snd (fuzz e self w)) = running w.
Proof.
  intros Hc Hx Ha Htc. unfold fuzz. run. rewrite Hc. run. rewrite Hx. run.
  unfold is_ascii in Ha. rewrite Ha. run. rewrite Htc. cbn [truthy_str negb].
  run. rewrite remove_child_head. done.
Qed.

Lemma fuzz_no_test_case_raises_witness :
  fst (fuzz quiet_env sample_target (initial_world ∅)) = Raise TypeError.
Proof.
  destruct (fuzz_no_test_case_raises quiet_env sample_target (initial_world ∅)
              None [] (String.list_byte_of_string "Done 100 runs")) as (H & _).
  - reflexivity.
  - reflexivity.
  - vm_compute. reflexivity.
  - vm_compute. reflexivity.
  - exact H.
Defined.

(** X2: a crash that none of the ten trials repeats is dropped: [fuzz]
    runs exactly ten trials on the extracted test case, logs that the
    crash was not reproducible and returns [(None, None)]. *)
Theorem fuzz_unreproducible_discarded (e : env) (self : FuzzTarget) (w : world)
    (c : option string) (out err : list byte) (tc : string) :
  corpus_dir self = Some c ->
  communicate e (fuzz_command self (get_container_name e) c) (duration self)
    = Exited out err ->
  is_ascii err = true ->
  get_test_case self (String.string_of_list_byte err) = Some tc ->
  (forall j, (j < 10)%nat -> trial_code e (reproduce_command self tc) w j = 0) ->
  let r := fuzz e self w in
  fst r = Ret (None, None) /\
  executes (snd r) = (executes w + 10)%nat /\
  running (snd r) = running w /\
  trace (snd r) =
    trace w
    ++ launch_trace self (fuzz_command self (get_container_name e) c)
    ++ [Log INFO ("Fuzzer " +:+ target_name self +:+ ", ended before timeout.")]
    ++ replicate 10 (Execute (reproduce_command self tc))
    ++ [Log ERROR "A crash was found but it was not reproducible."].
Proof.
  intros Hc Hx Ha Htc Hz r. subst r.
  destruct (fuzz_exit_with_test_case e self w c out err tc Hc Hx Ha Htc)
    as (w0 & Hex0 & Hft0 & Hrn0 & Htr0 & ->).
  unfold is_reproducible. change REPRODUCE_ATTEMPTS with 10%nat.
  destruct (reproduce_loop_all_zero e (reproduce_command self tc) 10 w0)
    as (w1 & Hloop & Hex1 & Htr1).
  { intros j Hj. rewrite (trial_code_same_count _ _ w) by done. by apply Hz. }
  destruct (reproduce_loop_returns e (reproduce_command self tc) 10 w0)
    as (b & w1' & Hloop' & _ & _ & Hrn1 & _).
  rewrite Hloop in Hloop'. injection Hloop' as <- <-.
  run. rewrite Hloop. run.
  split_and!; [done|lia|congruence|].
  rewrite Htr1, Htr0, <- !app_assoc. done.
Qed.

Lemma fuzz_unreproducible_discarded_witness :
  fst (fuzz flaky_env sample_target (initial_world ∅)) = Ret (None, None) /\
  executes (snd (fuzz flaky_env sample_target (initial_world ∅))) = 10%nat.
Proof.
  destruct (fuzz_unreproducible_discarded flaky_env sample_target (initial_world ∅)
              None [] (String.list_byte_of_string crash_text) "/out/crash-abc123")
    as (Hret & Hex & _).
  - reflexivity.
  - reflexivity.
  - vm_compute. reflexivity.
  - vm_compute. reflexivity.
  - intros j _. reflexivity.
  - split; [exact Hret|exact Hex].
Defined.

(** X3: a crash that the [k]-th trial repeats, the earlier ones having
    exited with 0, is reported: [fuzz] returns the extracted test case
    with the decoded output, after [k + 1] trials on that test case; the
    fuzzing process is no longer among the running children. *)
Theorem fuzz_reproducible_reported (e : env) (self : FuzzTarget) (w : world)
    (c : option string) (out err : list byte) (tc : string) (k : nat) :
  corpus_dir self = Some c ->
  communicate e (fuzz_command self (get_container_name e) c) (duration self)
    = Exited out err ->
  is_ascii err = true ->
  get_test_case self (String.string_of_list_byte err) = Some tc ->
  (k < 10)%nat ->
  (forall j, (j < k)%nat -> trial_code e (reproduce_command self tc) w j = 0) ->
  trial_code e (reproduce_command self tc) w k <> 0 ->
  let r := fuzz e self w in
  fst r = Ret (Some tc, Some (String.string_of_list_byte err)) /\
  executes (snd r) = (executes w + S k)%nat /\
  running (snd r) = running w /\
  trace (snd r) =
    trace w
    ++ launch_trace self (fuzz_command self (get_container_name e) c)
    ++ [Log INFO ("Fuzzer " +:+ target_name self +:+ ", ended before timeout.")]
    ++ replicate (S k) (Execute (reproduce_command self tc)).
Proof.
  intros Hc Hx Ha Htc Hk Hz Hnz r. subst r.
  destruct (fuzz_exit_with_test_case e self w c out err tc Hc Hx Ha Htc)
    as (w0 & Hex0 & Hft0 & Hrn0 & Htr0 & ->).
  unfold is_reproducible. change REPRODUCE_ATTEMPTS with 10%nat.
  destruct (reproduce_loop_first_nonzero e (reproduce_command self tc) 10 w0 k)
    as (w1 & Hloop & Hex1 & Htr1).
  { exact Hk. }
  { intros j Hj. rewrite (trial_code_same_count _ _ w) by done. by apply Hz. }
  { by rewrite (trial_code_same_count _ _ w). }
  destruct (reproduce_loop_returns e (reproduce_command self tc) 10 w0)
    as (b & w1' & Hloop' & _ & _ & Hrn1 & _).
  rewrite Hloop in Hloop'. injection Hloop' as <- <-.
  run. rewrite Hloop. run.
  split_and!; [done|lia|congruence|].
  rewrite Htr1, Htr0, <- !app_assoc. done.
Qed.

Lemma fuzz_reproducible_reported_witness :
  fst (fuzz crash_env sample_target (initial_world ∅))
    = Ret (Some "/out/crash-abc123",
           Some (String.string_of_list_byte (String.list_byte_of_string crash_text))) /\
  executes (snd (fuzz crash_env sample_target (initial_world ∅))) = 3%nat.
Proof.
  destruct (fuzz_reproducible_reported crash_env sample_target (initial_world ∅)
              None [] (String.list_byte_of_string crash_text) "/out/crash-abc123" 2)
    as (Hret & Hex & _).
  - reflexivity.
  - reflexivity.
  - vm_compute. reflexivity.
  - vm_compute. reflexivity.
  - lia.
  - intros [|[|j]] Hj; [reflexivity|reflexivity|lia].
  - vm_compute. discriminate.
  - split; [exact Hret|exact Hex].
Defined.


(** X5: what a run of [fuzz] costs.  It never fetches anything, it runs at
    most ten confirmation trials, and it leaves at most one more child
    running than it found (the fuzzing process, when it timed out). *)
Theorem fuzz_effects_bounded (e : env) (self : FuzzTarget) (w : world) :
  fetches (snd (fuzz e self w)) = fetches w /\
  (executes w <= executes (snd (fuzz e self w)) <= executes w + 10)%nat /\
  (running (snd (fuzz e self w)) = running w \/
   exists c, corpus_dir self = Some c /\
     running (snd (fuzz e self w))
     = fuzz_command self (get_container_name e) c :: running w).
Proof.
  unfold fuzz. run.
  destruct (corpus_dir self) as [c|] eqn:Hc; run; [|split_and!; [done|lia|lia|by left]]. destruct (communicate e _ _) as [out err|] eqn:Hx; run.
  2: { split_and!; [done|lia|lia|]. right. by exists c. }
  rewrite remove_child_head.
  destruct (forallb _ err) eqn:Ha; run.
  2: { split_and!; [done|lia|lia|by left]. }
  destruct (get_test_case self _) as [tc|] eqn:Htc; cbn [truthy_str].
  2: { run. split_and!; [done|lia|lia|by left]. }
  rewrite (get_test_case_Some_nonempty _ _ _ Htc). cbn [negb default from_option id].
  unfold is_reproducible. change REPRODUCE_ATTEMPTS with 10%nat.
  match goal with |- context [reproduce_loop e ?cmd 10 ?w1] =>
    destruct (reproduce_loop_returns e cmd 10 w1)
      as (b & w' & -> & Hex & _ & Hrn & Hft) end.
  cbn in Hex, Hrn, Hft.
  destruct b; run; split_and!; try done; try lia; by left.
Qed.

(** X6: the text that [fuzz] returns with a test case is the diagnostic
    output of the process, byte for byte, and the test case is the one
    extracted from it. *)
Theorem fuzz_stack_trace_is_stderr (e : env) (self : FuzzTarget) (w w' : world)
    (tc text : string) :
  fuzz e self w = (Ret (Some tc, Some text), w') ->
  exists c out,
    corpus_dir self = Some c /\
    communicate e (fuzz_command self (get_container_name e) c) (duration self)
      = Exited out (String.list_byte_of_string text) /\
    get_test_case self text = Some tc.
Proof.
  intros Hrun. unfold fuzz in Hrun. run_in Hrun.
  destruct (corpus_dir self) as [c|] eqn:Hc; [|discriminate].
  run_in Hrun.
  destruct (communicate e _ _) as [out err|] eqn:Hx; run_in Hrun; [|discriminate].
  destruct (forallb _ err) eqn:Ha; run_in Hrun; [|discriminate].
  destruct (get_test_case self _) as [tc0|] eqn:Htc; [|discriminate].
  cbn [truthy_str] in Hrun.
  rewrite (get_test_case_Some_nonempty _ _ _ Htc) in Hrun.
  cbn [negb default from_option id] in Hrun.
  match type of Hrun with context [is_reproducible e self tc0 ?w1] =>
    destruct (is_reproducible e self tc0 w1) as [[[|]|x] w2] end;
    try discriminate.
  injection Hrun as -> <- _.
  exists c, out. rewrite String.list_byte_of_string_of_list_byte. done.
Qed.

Lemma fuzz_stack_trace_is_stderr_witness :
  exists c out,
    corpus_dir sample_target = Some c /\
    communicate crash_env
      (fuzz_command sample_target (get_container_name crash_env) c)
      (duration sample_target)
      = Exited out (String.list_byte_of_string crash_text) /\
    get_test_case sample_target crash_text = Some "/out/crash-abc123".
Proof.
  apply (fuzz_stack_trace_is_stderr crash_env sample_target (initial_world ∅)
           (snd (fuzz crash_env sample_target (initial_world ∅)))).
  vm_compute. reflexivity.
Defined.

(** ** More on paths and extraction *)

Lemma append_assoc (a b c : string) : (a +:+ b) +:+ c = a +:+ b +:+ c.
Proof. induction a as [|x a IH]; [done|]. by rewrite !append_cons, IH. Qed.

Lemma startswith_append (a b : string) : PyStr.startswith a (a +:+ b) = true.
Proof.
  induction a as [|x a IH]; [done|]. rewrite append_cons. cbn.
  by rewrite bool_decide_eq_true_2.
Qed.

(** A component that does not start with a slash is put below the path. *)
Lemma join_step_relative (path b : string) :
  PyStr.startswith "/" b = false ->
  PosixPath.join_step path b = dir_prefix path +:+ b.
Proof.
  intros Hb. unfold PosixPath.join_step, dir_prefix. rewrite Hb.
  destruct (negb (PyStr.nonempty path) || PyStr.endswith_char path PosixPath.sep);
    [done|by rewrite append_assoc].
Qed.

(** A component that starts with a slash replaces the path. *)
Lemma join_step_absolute (path b : string) :
  PyStr.startswith "/" b = true -> PosixPath.join_step path b = b.
Proof. intros Hb. unfold PosixPath.join_step. by rewrite Hb. Qed.

Lemma nonspace_run_head_slash (rest : string) :
  PyStr.startswith "/" (Pattern.nonspace_run rest) = PyStr.startswith "/" rest.
Proof.
  destruct rest as [|c rest]; [done|]. cbn [Pattern.nonspace_run].
  destruct (PyStr.isspace c) eqn:Hc; [|done].
  cbn. case_bool_decide as Heq; [|done]. subst c. done.
Qed.

Lemma get_test_case_of_first_match (self : FuzzTarget) (text pre rest : string) :
  first_match None text pre rest ->
  get_test_case self text
  = Some (PosixPath.join (out_dir self) [Pattern.nonspace_run rest]).
Proof.
  intros Hfm. unfold get_test_case, Pattern.search.
  by rewrite (proj2 (PatternFacts.search_from_Some text None (Pattern.nonspace_run rest))
                (ex_intro _ pre (ex_intro _ rest (conj Hfm eq_refl)))).
Qed.

(** X7: a path returned by [get_test_case] is never empty; it is the
    output directory joined with a non-empty run of non-space characters
    that stands in the text right after the marker. *)
Theorem get_test_case_result_shape (self : FuzzTarget) (text p : string) :
  get_test_case self text = Some p ->
  PyStr.nonempty p = true /\
  exists pre g post,
    text = pre +:+ Pattern.marker +:+ g +:+ post /\
    PyStr.nonempty g = true /\ no_space g = true /\
    starts_nonspace post = false /\
    p = PosixPath.join (out_dir self) [g].
Proof.
  intros Hp. split; [by apply (get_test_case_Some_nonempty self text)|].
  unfold get_test_case, Pattern.search in Hp.
  destruct (Pattern.search_from None text) as [g|] eqn:Hs; [|discriminate].
  injection Hp as <-.
  apply PatternFacts.search_from_Some in Hs as (pre & rest & (Ht & [_ Hq] & _) & ->).
  destruct (PatternFacts.nonspace_run_longest rest) as (post & Hsplit & Hns & Hpost).
  exists pre, (Pattern.nonspace_run rest), post.
  rewrite <- Hsplit, PatternFacts.nonspace_run_nonempty. done.
Qed.

Lemma get_test_case_result_shape_witness :
  PyStr.nonempty "/out/crash-abc123" = true /\
  exists pre g post,
    crash_text = pre +:+ Pattern.marker +:+ g +:+ post /\
    PyStr.nonempty g = true /\ no_space g = true /\
    starts_nonspace post = false /\
    "/out/crash-abc123" = PosixPath.join (out_dir sample_target) [g].
Proof.
  apply (get_test_case_result_shape sample_target crash_text "/out/crash-abc123").
  vm_compute. reflexivity.
Defined.

(** X8: when the text after the first counting marker starts with a slash,
    [get_test_case] returns that run as it is: the path is absolute and the
    output directory plays no part. *)
Theorem get_test_case_absolute_run (self : FuzzTarget) (text pre rest : string) :
  first_match None text pre rest ->
  PyStr.startswith "/" rest = true ->
  get_test_case self text = Some (Pattern.nonspace_run rest).
Proof.
  intros Hfm Hslash. rewrite (get_test_case_of_first_match self text pre rest Hfm).
  cbn [PosixPath.join fold_left]. rewrite join_step_absolute; [done|].
  by rewrite nonspace_run_head_slash.
Qed.

Lemma get_test_case_absolute_run_witness :
  get_test_case sample_target "Test unit written to .//etc/passwd now"
  = Some "/etc/passwd".
Proof.
  apply (get_test_case_absolute_run sample_target
           "Test unit written to .//etc/passwd now" "" "/etc/passwd now").
  - split; [reflexivity|]. split; [split; reflexivity|].
    intros pre' rest' _ _. cbn. lia.
  - reflexivity.
Defined.

(** X9: when the text after the first counting marker does not start with
    a slash, the path returned is the output directory, a slash unless the
    directory is empty or ends in one, and the run: it lies below the
    output directory. *)
Theorem get_test_case_relative_run (self : FuzzTarget) (text pre rest : string) :
  first_match None text pre rest ->
  PyStr.startswith "/" rest = false ->
  get_test_case self text
    = Some (dir_prefix (out_dir self) +:+ Pattern.nonspace_run rest) /\
  PyStr.startswith (out_dir self)
    (dir_prefix (out_dir self) +:+ Pattern.nonspace_run rest) = true.
Proof.
  intros Hfm Hslash. rewrite (get_test_case_of_first_match self text pre rest Hfm).
  cbn [PosixPath.join fold_left].
  rewrite join_step_relative by (by rewrite nonspace_run_head_slash).
  split; [done|]. unfold dir_prefix.
  destruct (negb (PyStr.nonempty (out_dir self)) || _).
  - apply startswith_append.
  - rewrite append_assoc. apply startswith_append.
Qed.

Lemma get_test_case_relative_run_witness :
  get_test_case sample_target "Test unit written to ./crash-1 (42 bytes)"
    = Some (dir_prefix "/out" +:+ Pattern.nonspace_run "crash-1 (42 bytes)") /\
  PyStr.startswith "/out"
    (dir_prefix "/out" +:+ Pattern.nonspace_run "crash-1 (42 bytes)") = true.
Proof.
  apply (get_test_case_relative_run sample_target
           "Test unit written to ./crash-1 (42 bytes)" "" "crash-1 (42 bytes)").
  - split; [reflexivity|]. split; [split; reflexivity|].
    intros pre' rest' _ _. cbn. lia.
  - reflexivity.
Defined.

(** [basename] cuts after the last slash. *)
Lemma rfind_succ_zero (c : ascii) (s : string) :
  PyStr.rfind_succ c s = 0%nat -> has_char c s = false.
Proof.
  induction s as [|d s IH]; [done|]. cbn.
  destruct (PyStr.rfind_succ c s); [|discriminate].
  case_bool_decide; [discriminate|]. intros _. by rewrite IH.
Qed.

Lemma drop_rfind_no_char (c : ascii) (s : string) :
  has_char c (PyStr.drop (PyStr.rfind_succ c s) s) = false.
Proof.
  induction s as [|d s IH]; [done|]. cbn [PyStr.rfind_succ].
  destruct (PyStr.rfind_succ c s) as [|k] eqn:Hk.
  - apply rfind_succ_zero in Hk. case_bool_decide as Hd.
    + done.
    + cbn. by rewrite bool_decide_eq_false_2, Hk.
  - exact IH.
Qed.

Lemma take_drop (n : nat) (s : string) : PyStr.take n s +:+ PyStr.drop n s = s.
Proof.
  revert s. induction n as [|n IH]; intros [|d s]; try done.
  cbn [PyStr.take PyStr.drop]. by rewrite append_cons, IH.
Qed.

Lemma take_rfind_ends (c : ascii) (s : string) :
  PyStr.take (PyStr.rfind_succ c s) s = "" \/
  PyStr.endswith_char (PyStr.take (PyStr.rfind_succ c s) s) c = true.
Proof.
  induction s as [|d s IH]; [by left|]. cbn [PyStr.rfind_succ].
  destruct (PyStr.rfind_succ c s) as [|k] eqn:Hk.
  - case_bool_decide as Hd; [|by left]. right. subst d. cbn.
    by rewrite bool_decide_eq_true_2.
  - right. destruct IH as [IH|IH].
    + destruct s; discriminate.
    + cbn [PyStr.take] in *. destruct s as [|d' s]; [discriminate|].
      cbn [PyStr.take] in *. exact IH.
Qed.

(** X10: the target name set by the constructor is the last component of
    the target path: it holds no slash, and what stands before it in the
    path is empty or ends in a slash. *)
Theorem init_target_name_last_component (tp : string) (d : Z) (od : string)
    (pn : option string) :
  has_char "/" (target_name (init tp d od pn)) = false /\
  exists head,
    tp = head +:+ target_name (init tp d od pn) /\
    (head = "" \/ PyStr.endswith_char head "/" = true).
Proof.
  cbn [init target_name]. unfold PosixPath.basename. split.
  - apply drop_rfind_no_char.
  - exists (PyStr.take (PyStr.rfind_succ PosixPath.sep tp) tp).
    split; [by rewrite take_drop|apply take_rfind_ends].
Qed.

Lemma no_char_not_startswith (s : string) :
  has_char "/" s = false -> PyStr.startswith "/" s = false.
Proof.
  destruct s as [|c s]; [done|]. cbn. intros [H _]%orb_false_iff.
  apply bool_decide_eq_false in H. by rewrite bool_decide_eq_false_2.
Qed.

Lemma endswith_char_append (a : string) (c : ascii) (b : string) (d : ascii) :
  PyStr.endswith_char (a +:+ String c b) d = PyStr.endswith_char (String c b) d.
Proof.
  induction a as [|x a IH]; [done|]. rewrite append_cons.
  cbn [PyStr.endswith_char]. destruct (a +:+ String c b) eqn:Ha.
  - destruct a; discriminate.
  - exact IH.
Qed.

Lemma corpus_path_relative_target (self : FuzzTarget) :
  PyStr.startswith "/" (target_name self) = false ->
  corpus_path self = dir_prefix (out_dir self) +:+ "corpus/" +:+ target_name self.
Proof.
  intros Ht. unfold corpus_path. cbn [PosixPath.join fold_left].
  rewrite (join_step_relative (out_dir self) "corpus") by done.
  rewrite join_step_relative by done.
  unfold dir_prefix at 1.
  rewrite (endswith_char_append (dir_prefix (out_dir self)) "c" "orpus").
  replace (PyStr.nonempty (dir_prefix (out_dir self) +:+ "corpus")) with true.
  - cbn [negb orb PyStr.endswith_char]. change (bool_decide _) with false.
    cbn iota. by rewrite !append_assoc.
  - destruct (dir_prefix (out_dir self)); [done|by rewrite append_cons].
Qed.

(** X11: for a target made by the constructor the corpus directory lies
    below the output directory: it is the output directory, a slash unless
    that is empty or ends in one, then [corpus/] and the last component of
    the target path. *)
Theorem corpus_path_of_init (tp : string) (d : Z) (od : string)
    (pn : option string) :
  corpus_path (init tp d od pn)
    = dir_prefix od +:+ "corpus/" +:+ PosixPath.basename tp /\
  PyStr.startswith od (corpus_path (init tp d od pn)) = true.
Proof.
  assert (H : corpus_path (init tp d od pn)
              = dir_prefix od +:+ "corpus/" +:+ PosixPath.basename tp).
  { rewrite corpus_path_relative_target; [done|].
    apply no_char_not_startswith. cbn [init target_name].
    apply drop_rfind_no_char. }
  split; [exact H|]. rewrite H. unfold dir_prefix.
  destruct (negb (PyStr.nonempty od) || _).
  - apply startswith_append.
  - rewrite append_assoc. apply startswith_append.
Qed.

(** ** More on corpus acquisition *)

(** Every way a download can go, with the world it leaves. *)
Lemma download_cases (e : env) (self : FuzzTarget) (w : world) :
  let r := download_latest_corpus e self w in
  (fst r = Ret None /\ snd r = w /\ truthy_str (project_name self) = false) \/
  (fst r = Ret None /\ fs (snd r) = fs w /\ fetches (snd r) = fetches w /\
   executes (snd r) = executes w /\ running (snd r) = running w /\
   fs w !! out_dir self = None) \/
  (truthy_str (project_name self) = true /\ is_Some (fs w !! out_dir self) /\
   fetches (snd r) = S (fetches w) /\
   executes (snd r) = executes w /\ running (snd r) = running w /\
   ((exists a, urlopen e (fetches w) (corpus_url self) = Response (Zip a) /\
               fst r = Ret (Some (corpus_path self)) /\
               fs (snd r) = <[corpus_path self := a ∪ listing w (corpus_path self)]> (fs w)) \/
    ((fst r = Ret None /\ urlopen e (fetches w) (corpus_url self) = HTTPStatusError \/
      fst r = Raise URLError /\ urlopen e (fetches w) (corpus_url self) = ConnectionFailure \/
      fst r = Raise BadZipFile /\ urlopen e (fetches w) (corpus_url self) = Response NotAZip) /\
     fs (snd r) = <[corpus_path self := listing w (corpus_path self)]> (fs w)))).
Proof.
  intros r. subst r. unfold download_latest_corpus.
  destruct (truthy_str (project_name self)) eqn:Hp; cbn [negb]; [|by left].
  right. run. destruct (fs w !! out_dir self) as [d0|] eqn:Hout.
  2: { rewrite bool_decide_eq_false_2 by (intros [? ?]; done). run. by left. }
  right. rewrite bool_decide_eq_true_2 by done. run.
  fold (corpus_path self). fold (corpus_url self).
  assert (Hmk : forall x,
    <[corpus_path self := x]>
      (match fs w !! corpus_path self with
       | Some _ => fs w
       | None => <[corpus_path self := ∅]> (fs w)
       end) = <[corpus_path self := x]> (fs w)).
  { intros x. destruct (fs w !! corpus_path self); [done|by rewrite insert_insert_eq]. }
  assert (Hls : match fs w !! corpus_path self with
                | Some _ => fs w
                | None => <[corpus_path self := ∅]> (fs w)
                end = <[corpus_path self := listing w (corpus_path self)]> (fs w)).
  { unfold listing. destruct (fs w !! corpus_path self) as [d|] eqn:Hd; cbn.
    - by rewrite insert_id.
    - done. }
  assert (Hlk : default ∅
                  (match fs w !! corpus_path self with
                   | Some _ => fs w
                   | None => <[corpus_path self := ∅]> (fs w)
                   end !! corpus_path self) = listing w (corpus_path self)).
  { unfold listing. destruct (fs w !! corpus_path self) as [d|] eqn:Hd.
    - by rewrite Hd.
    - by rewrite lookup_insert_eq. }
  destruct (urlopen e (fetches w) (corpus_url self)) as [[a|]| |] eqn:Hurl; run.
  - split_and!; try done. left. exists a. by rewrite Hlk, Hmk.
  - split_and!; try done. right. split; [|exact Hls]. do 2 right. done.
  - split_and!; try done. right. split; [|exact Hls]. by left.
  - split_and!; try done. right. split; [|exact Hls]. right. by left.
Qed.

(** X12: a successful download into a corpus directory that did not exist
    leaves exactly the archive's members there, after one fetch. *)
Theorem download_into_fresh_directory (e : env) (self : FuzzTarget) (w : world)
    (a : gmap string (list byte)) :
  truthy_str (project_name self) = true ->
  is_Some (fs w !! out_dir self) ->
  fs w !! corpus_path self = None ->
  urlopen e (fetches w) (corpus_url self) = Response (Zip a) ->
  let r := download_latest_corpus e self w in
  fst r = Ret (Some (corpus_path self)) /\
  fs (snd r) !! corpus_path self = Some a /\
  fetches (snd r) = S (fetches w).
Proof.
  intros Hp Hout Hnew Hurl r. subst r.
  destruct (download_success e self w a Hp Hout Hurl) as (w' & -> & Hfs & Hft).
  cbn [fst snd]. split_and!; [done| |done].
  rewrite Hfs, lookup_insert_eq. unfold listing. rewrite Hnew. cbn.
  by rewrite (right_id_L ∅ (∪)).
Qed.

Lemma download_into_fresh_directory_witness :
  fst (download_latest_corpus one_archive_env project_target out_world)
    = Ret (Some (corpus_path project_target)) /\
  fs (snd (download_latest_corpus one_archive_env project_target out_world))
    !! corpus_path project_target = Some first_archive.
Proof.
  destruct (download_into_fresh_directory one_archive_env project_target out_world
              first_archive) as (Hret & Hdir & _).
  - reflexivity.
  - exists ∅. vm_compute. reflexivity.
  - vm_compute. reflexivity.
  - reflexivity.
  - split; [exact Hret|exact Hdir].
Defined.

(** X13: fetching the same archive twice in succession gives the file
    system that fetching it once gives. *)
Theorem download_same_archive_idempotent (e : env) (self : FuzzTarget) (w : world)
    (a : gmap string (list byte)) :
  truthy_str (project_name self) = true ->
  is_Some (fs w !! out_dir self) ->
  urlopen e (fetches w) (corpus_url self) = Response (Zip a) ->
  urlopen e (S (fetches w)) (corpus_url self) = Response (Zip a) ->
  let r1 := download_latest_corpus e self w in
  let r2 := download_latest_corpus e self (snd r1) in
  fst r2 = fst r1 /\ fs (snd r2) = fs (snd r1).
Proof.
  intros Hp Hout H1 H2 r1 r2.
  destruct (download_success e self w a Hp Hout H1) as (w1 & Hr1 & Hfs1 & Hft1).
  assert (Hout1 : is_Some (fs w1 !! out_dir self)).
  { rewrite Hfs1, lookup_insert. case_decide; [by eexists|done]. }
  rewrite <- Hft1 in H2.
  destruct (download_success e self w1 a Hp Hout1 H2) as (w2 & Hr2 & Hfs2 & Hft2).
  subst r2 r1. rewrite Hr1. cbn [fst snd]. rewrite Hr2. cbn [fst snd].
  split; [done|]. rewrite Hfs2. unfold listing at 1.
  rewrite Hfs1, lookup_insert_eq, insert_insert_eq. cbn.
  by rewrite (assoc_L (∪)), (idemp_L (∪)).
Qed.

Lemma download_same_archive_idempotent_witness :
  fs (snd (download_latest_corpus one_archive_env project_target
             (snd (download_latest_corpus one_archive_env project_target out_world))))
  = fs (snd (download_latest_corpus one_archive_env project_target out_world)).
Proof.
  destruct (download_same_archive_idempotent one_archive_env project_target out_world
              first_archive) as (_ & Hfs).
  - reflexivity.
  - exists ∅. vm_compute. reflexivity.
  - reflexivity.
  - reflexivity.
  - exact Hfs.
Defined.

(** X14: a download that meets an HTTP error status returns [None] after
    logging the failure, but the corpus directory has been made by then: it
    exists afterwards, empty if it was not there and with its old files
    otherwise. *)
Theorem download_http_error_leaves_directory (e : env) (self : FuzzTarget)
    (w : world) :
  truthy_str (project_name self) = true ->
  is_Some (fs w !! out_dir self) ->
  urlopen e (fetches w) (corpus_url self) = HTTPStatusError ->
  let r := download_latest_corpus e self w in
  fst r = Ret None /\
  fs (snd r) !! corpus_path self = Some (listing w (corpus_path self)) /\
  last (trace (snd r))
    = Some (Log ERROR ("Unable to download corpus from: " +:+ corpus_url self)).
Proof.
  intros Hp Hout Hurl r. subst r. unfold download_latest_corpus. rewrite Hp. run.
  rewrite bool_decide_eq_true_2 by done. run.
  fold (corpus_path self). fold (corpus_url self). rewrite Hurl. run.
  split_and!; [done| |by rewrite last_snoc].
  unfold listing. destruct (fs w !! corpus_path self) as [d|] eqn:Hd.
  - by rewrite Hd.
  - by rewrite lookup_insert_eq.
Qed.

Lemma download_http_error_leaves_directory_witness :
  fst (download_latest_corpus crash_env project_target out_world) = Ret None /\
  fs (snd (download_latest_corpus crash_env project_target out_world))
    !! corpus_path project_target = Some (listing out_world (corpus_path project_target)).
Proof.
  destruct (download_http_error_leaves_directory crash_env project_target out_world)
    as (Hret & Hdir & _).
  - reflexivity.
  - exists ∅. vm_compute. reflexivity.
  - reflexivity.
  - split; [exact Hret|exact Hdir].
Defined.

(** X15: a response that is not a zip archive is not handled:
    [download_latest_corpus] raises [BadZipFile]; the corpus directory has
    been made and nothing is put into it. *)
Theorem download_bad_archive_raises (e : env) (self : FuzzTarget) (w : world) :
  truthy_str (project_name self) = true ->
  is_Some (fs w !! out_dir self) ->
  urlopen e (fetches w) (corpus_url self) = Response NotAZip ->
  let r := download_latest_corpus e self w in
  fst r = Raise BadZipFile /\
  fs (snd r) !! corpus_path self = Some (listing w (corpus_path self)).
Proof.
  intros Hp Hout Hurl r. subst r. unfold download_latest_corpus. rewrite Hp. run.
  rewrite bool_decide_eq_true_2 by done. run.
  fold (corpus_path self). fold (corpus_url self). rewrite Hurl. run.
  split; [done|].
  unfold listing. destruct (fs w !! corpus_path self) as [d|] eqn:Hd.
  - by rewrite Hd.
  - by rewrite lookup_insert_eq.
Qed.

Lemma download_bad_archive_raises_witness :
  fst (download_latest_corpus quiet_env project_target out_world) = Raise BadZipFile.
Proof.
  destruct (download_bad_archive_raises quiet_env project_target out_world)
    as (Hret & _).
  - reflexivity.
  - exists ∅. vm_compute. reflexivity.
  - reflexivity.
  - exact Hret.
Defined.



Lemma corpus_path_nonempty (self : FuzzTarget) :
  PyStr.nonempty (corpus_path self) = true.
Proof.
  unfold corpus_path. cbn [PosixPath.join fold_left].
  destruct (PyStr.startswith "/" (target_name self)) eqn:Ht.
  - rewrite join_step_absolute by done. by destruct (target_name self).
  - rewrite join_step_relative by done.
    rewrite (join_step_relative (out_dir self) "corpus") by done.
    unfold dir_prefix at 1.
    rewrite (endswith_char_append (dir_prefix (out_dir self)) "c" "orpus").
    replace (PyStr.nonempty (dir_prefix (out_dir self) +:+ "corpus")) with true
      by (destruct (dir_prefix (out_dir self)); [done|by rewrite append_cons]).
    cbn [negb orb PyStr.endswith_char]. change (bool_decide _) with false.
    cbn iota. rewrite !append_assoc.
    destruct (dir_prefix (out_dir self)); [done|by rewrite append_cons].
Qed.

(** X18: handing the result of a download to [fuzz].  A path returned by
    [download_latest_corpus] is never empty, so once the caller has stored
    it in [corpus_dir] the fuzzing command ends with the [run_fuzzer] line
    followed by that path. *)
Theorem download_result_reaches_fuzzer (e : env) (self : FuzzTarget)
    (w w1 : world) (path : string) (container : option string) :
  download_latest_corpus e self w = (Ret (Some path), w1) ->
  PyStr.nonempty path = true /\
  last (fuzz_command (set_corpus_dir (Some path) self) container (Some path))
  = Some ("run_fuzzer " +:+ target_name self +:+ " " +:+ LIBFUZZER_OPTIONS
          +:+ " " +:+ path).
Proof.
  intros Hrun.
  destruct (download_cases e self w)
    as [(Hr & _)|[(Hr & _)|(_ & _ & _ & _ & _ & Hres)]];
    rewrite Hrun in *; cbn [fst] in *; try discriminate.
  assert (path = corpus_path self) as ->.
  { destruct Hres as [(a & _ & Hr & _)|[[[Hr _]|[[Hr _]|[Hr _]]] _]]; congruence. }
  pose proof (corpus_path_nonempty self) as Hne. split; [exact Hne|].
  unfold fuzz_command. rewrite Hne. rewrite last_snoc.
  cbn [target_name set_corpus_dir]. by rewrite !append_assoc.
Qed.

Lemma download_result_reaches_fuzzer_witness :
  PyStr.nonempty "/out/corpus/fuzz_a" = true /\
  last (fuzz_command (set_corpus_dir (Some "/out/corpus/fuzz_a") project_target)
          None (Some "/out/corpus/fuzz_a"))
  = Some ("run_fuzzer " +:+ target_name project_target +:+ " " +:+ LIBFUZZER_OPTIONS
          +:+ " " +:+ "/out/corpus/fuzz_a").
Proof.
  apply (download_result_reaches_fuzzer one_archive_env project_target out_world
           (snd (download_latest_corpus one_archive_env project_target out_world))).
  vm_compute. reflexivity.
Defined.
